(** * drp_model_suite: datasets, feature stores and the experiment loop

    A shallow embedding of [suite/data_wrapper.py] and [suite/experiment.py].

    - numpy arrays of one dimension are lists; Python floats are [pyfloat]
      (the rationals extended with both infinities and NaN, with the
      comparison of IEEE 754);
    - a method that mutates [self] is a computation in a state and error
      monad whose state is the object: an exception leaves the
      assignments made before it in place, as in Python;
    - the objects that [experiment.py] passes around by reference live in
      a heap indexed by references. *)

From Stdlib Require Import QArith Qcanon.
From stdpp Require Import gmap strings list fin_maps pretty.

(** ** Python values *)

Inductive exn : Type :=
  | IndexError
  | KeyError
  | TypeError
  | ValueError
  | UnboundLocalError.

Inductive result (A : Type) : Type :=
  | Ok (a : A)
  | Raise (e : exn).
Arguments Ok {A} a.
Arguments Raise {A} e.

(** A Python float. *)
Inductive pyfloat : Type :=
  | Fin (q : Qc)
  | PInf
  | NInf
  | NaN.

Definition Qcltb (a b : Qc) : bool :=
  match (a ?= b)%Qc with Lt => true | _ => false end.

(** [x < y] on floats: false as soon as one side is NaN. *)
Definition float_ltb (x y : pyfloat) : bool :=
  match x, y with
  | NaN, _ | _, NaN => false
  | _, NInf => false
  | NInf, _ => true
  | PInf, _ => false
  | Fin _, PInf => true
  | Fin a, Fin b => Qcltb a b
  end.

(** An argument annotated [Union[str, list]]. *)
Inductive str_or_list : Type :=
  | Str (s : string)
  | Lst (l : list string).

(** [x in l] for a list of strings. *)
Definition py_in (x : string) (l : list string) : bool := bool_decide (x ∈ l).

(** ** The state and error monad *)

Definition M (S A : Type) : Type := S → S * result A.

Definition ret {S A} (a : A) : M S A := λ s, (s, Ok a).
Definition raise {S A} (e : exn) : M S A := λ s, (s, Raise e).
Definition bind {S A B} (m : M S A) (k : A → M S B) : M S B :=
  λ s, match m s with
       | (s', Ok a) => k a s'
       | (s', Raise e) => (s', Raise e)
       end.
Definition get {S} : M S S := λ s, (s, Ok s).
Definition put {S} (s : S) : M S unit := λ _, (s, Ok tt).
Definition lift {S A} (r : result A) : M S A := λ s, (s, r).

Notation "'do' x <- m 'in' k" := (bind m (λ x, k))
  (at level 10, x name, m at level 100, k at level 200, only parsing).
Notation "'run' m 'in' k" := (bind m (λ _, k))
  (at level 10, m at level 100, k at level 200, only parsing).

(** ** numpy indexing *)

(** The rows of [xs] at which [mask] is true. *)
Fixpoint mask_filter {A} (xs : list A) (mask : list bool) : list A :=
  match xs, mask with
  | x :: xs', b :: mask' =>
      if b then x :: mask_filter xs' mask' else mask_filter xs' mask'
  | _, _ => []
  end.

(** [xs[mask]] for a Python list of booleans: a boolean index whose length
    must be that of [xs]; the empty list is an empty integer index and
    selects nothing from any array. *)
Definition bool_index {A} (xs : list A) (mask : list bool) : result (list A) :=
  match mask with
  | [] => Ok []
  | _ => if decide (length mask = length xs)
         then Ok (mask_filter xs mask) else Raise IndexError
  end.

(** [xs[indices]] for an array of indices. *)
Fixpoint int_index {A} (xs : list A) (indices : list nat) : result (list A) :=
  match indices with
  | [] => Ok []
  | i :: indices' =>
      match xs !! i, int_index xs indices' with
      | Some x, Ok r => Ok (x :: r)
      | _, _ => Raise IndexError
      end
  end.

(** ** DrugResponseDataset *)

Record DrugResponseDataset : Type := mkDRD {
  response : list pyfloat;
  cell_line_ids : list string;
  drug_ids : list string;
  predictions : option (list pyfloat)
}.

Definition set_response (v : list pyfloat) (d : DrugResponseDataset) :=
  mkDRD v (cell_line_ids d) (drug_ids d) (predictions d).
Definition set_cell_line_ids (v : list string) (d : DrugResponseDataset) :=
  mkDRD (response d) v (drug_ids d) (predictions d).
Definition set_drug_ids (v : list string) (d : DrugResponseDataset) :=
  mkDRD (response d) (cell_line_ids d) v (predictions d).
Definition set_predictions (v : option (list pyfloat)) (d : DrugResponseDataset) :=
  mkDRD (response d) (cell_line_ids d) (drug_ids d) v.

(** [__init__]: the three arrays as given, no predictions. *)
Definition DrugResponseDataset_init
    (response : list pyfloat) (cell_line_ids drug_ids : list string) :=
  mkDRD response cell_line_ids drug_ids None.

(** [__len__] *)
Definition len (d : DrugResponseDataset) : nat := length (response d).

Section Dataset.

(** [np.random.seed(random_state); np.random.shuffle(np.arange(n))]: the
    order the generator gives to [0 .. n-1] for that seed. *)
Variable np_shuffle : Z → nat → list nat.

Definition add_rows (other : DrugResponseDataset) : M DrugResponseDataset unit :=
  do self <- get in
  run put (set_response (response self ++ response other) self) in
  do self <- get in
  run put (set_cell_line_ids (cell_line_ids self ++ cell_line_ids other) self) in
  do self <- get in
  run put (set_drug_ids (drug_ids self ++ drug_ids other) self) in
  do self <- get in
  match predictions self, predictions other with
  | Some p, Some q => put (set_predictions (Some (p ++ q)) self)
  | _, _ => ret tt
  end.

Definition shuffle (random_state : Z) : M DrugResponseDataset unit :=
  do self <- get in
  let indices := np_shuffle random_state (length (response self)) in
  do r <- lift (int_index (response self) indices) in
  run put (set_response r self) in
  do self <- get in
  do c <- lift (int_index (cell_line_ids self) indices) in
  run put (set_cell_line_ids c self) in
  do self <- get in
  do d <- lift (int_index (drug_ids self) indices) in
  run put (set_drug_ids d self) in
  do self <- get in
  match predictions self with
  | Some p =>
      do p' <- lift (int_index p indices) in
      put (set_predictions (Some p') self)
  | None => ret tt
  end.

Definition remove_drugs (drugs_to_remove : str_or_list)
  : M DrugResponseDataset unit :=
  let drugs_to_remove :=
    match drugs_to_remove with Str s => [s] | Lst l => l end in
  do self <- get in
  let mask := map (λ drug, negb (py_in drug drugs_to_remove)) (drug_ids self) in
  do d <- lift (bool_index (drug_ids self) mask) in
  run put (set_drug_ids d self) in
  do self <- get in
  do c <- lift (bool_index (cell_line_ids self) mask) in
  run put (set_cell_line_ids c self) in
  do self <- get in
  do r <- lift (bool_index (response self) mask) in
  put (set_response r self).

Definition remove_cell_lines (cell_lines_to_remove : str_or_list)
  : M DrugResponseDataset unit :=
  let cell_lines_to_remove :=
    match cell_lines_to_remove with Str s => [s] | Lst l => l end in
  do self <- get in
  let mask :=
    map (λ cell_line, negb (py_in cell_line cell_lines_to_remove))
        (cell_line_ids self) in
  do d <- lift (bool_index (drug_ids self) mask) in
  run put (set_drug_ids d self) in
  do self <- get in
  do c <- lift (bool_index (cell_line_ids self) mask) in
  run put (set_cell_line_ids c self) in
  do self <- get in
  do r <- lift (bool_index (response self) mask) in
  put (set_response r self).

Definition reduce_to (cell_line_ids' drug_ids' : list string)
  : M DrugResponseDataset unit :=
  do self <- get in
  run remove_drugs
        (Lst (filter (λ drug, ¬ drug ∈ drug_ids') (drug_ids self))) in
  do self <- get in
  remove_cell_lines
    (Lst (filter (λ cell_line, ¬ cell_line ∈ cell_line_ids')
                 (cell_line_ids self))).

End Dataset.

(** [split_dataset]: the two splitters of [utils] are collaborators; a
    dataset object carries the attribute [cv_splits] once it has been
    split. *)
Section Split.

(** One fold as the splitters return it. *)
Variable fold : Type.

Variable leave_pair_out_cv :
  nat → list pyfloat → list string → list string → bool → pyfloat → Z →
  result (list fold).
Variable leave_group_out_cv :
  string → nat → list pyfloat → list string → list string → bool →
  pyfloat → Z → result (list fold).

Definition split_dataset (n_cv_splits : nat) (mode : string)
    (split_validation : bool) (validation_ratio : pyfloat) (random_state : Z)
  : M (DrugResponseDataset * option (list fold)) (list fold) :=
  do st <- get in
  let self := st.1 in
  let cell_line_ids := cell_line_ids self in
  let drug_ids := drug_ids self in
  let response := response self in
  do cv_splits <-
    (if String.eqb mode "LPO" then
       lift (leave_pair_out_cv n_cv_splits response cell_line_ids drug_ids
               split_validation validation_ratio random_state)
     else if py_in mode ["LCO"; "LDO"] then
       let group := if String.eqb mode "LCO" then "cell_line" else "drug" in
       lift (leave_group_out_cv group n_cv_splits response cell_line_ids
               drug_ids split_validation validation_ratio random_state)
     else raise ValueError) in
  run put (self, Some cv_splits) in
  ret cv_splits.

End Split.

(** ** Python dictionaries, in insertion order *)

Definition pydict (V : Type) : Type := list (string * V).

Fixpoint dict_get {V} (k : string) (d : pydict V) : option V :=
  match d with
  | [] => None
  | (k', v) :: d' => if decide (k = k') then Some v else dict_get k d'
  end.

(** [d[k] = v]: a present key keeps its place. *)
Fixpoint dict_set {V} (k : string) (v : V) (d : pydict V) : pydict V :=
  match d with
  | [] => [(k, v)]
  | (k', v') :: d' =>
      if decide (k = k') then (k', v) :: d' else (k', v') :: dict_set k v d'
  end.

Definition dict_keys {V} (d : pydict V) : list string := d.*1.

(** [d[k]] *)
Definition subscript {S V} (d : pydict V) (k : string) : M S V :=
  match dict_get k d with
  | Some v => ret v
  | None => raise KeyError
  end.

(** A local variable: [None] until it is assigned. *)
Definition read_local {S A} (v : option A) : M S A :=
  match v with
  | Some a => ret a
  | None => raise UnboundLocalError
  end.

Fixpoint foldM {S A B} (f : B → A → M S B) (l : list A) (b : B) : M S B :=
  match l with
  | [] => ret b
  | a :: l' => do b' <- f b a in foldM f l' b'
  end.

(** [for a in l: f a] *)
Definition forM {S A} (l : list A) (f : A → M S unit) : M S unit :=
  foldM (λ _ a, f a) l tt.

(** [sub in s] for two strings. *)
Fixpoint is_substring (sub s : string) : bool :=
  if String.prefix sub s then true
  else match s with
       | EmptyString => false
       | String _ s' => is_substring sub s'
       end.

(** [x in c] where [c] is a string or a list of strings. *)
Definition py_in_any (x : string) (c : str_or_list) : bool :=
  match c with
  | Str s => is_substring x s
  | Lst l => py_in x l
  end.

(** ** FeatureDataset *)

Definition vector : Type := list pyfloat.

Record FeatureDataset : Type := mkFD {
  features : pydict (pydict vector);
  view_names : list string;
  identifiers : list string
}.

Definition set_features (f : pydict (pydict vector)) (self : FeatureDataset) :=
  mkFD f (view_names self) (identifiers self).

Definition get_ids (self : FeatureDataset) : list string :=
  dict_keys (features self).

(** [list(self.features[list(self.features.keys())[0]].keys())] *)
Definition get_view_names (self : FeatureDataset) : result (list string) :=
  match dict_keys (features self) with
  | [] => Raise IndexError
  | k :: _ =>
      match dict_get k (features self) with
      | Some views => Ok (dict_keys views)
      | None => Raise KeyError
      end
  end.

(** [__init__] *)
Definition FeatureDataset_init (features : pydict (pydict vector))
  : result FeatureDataset :=
  match get_view_names (mkFD features [] []) with
  | Ok names => Ok (mkFD features names (dict_keys features))
  | Raise e => Raise e
  end.

Section Randomize.

(** The generator of [np.random]: the state counts the draws made;
    [np_permutation k l] is what the draw number [k] gives for
    [np.random.permutation(l)], and [np_normal k v] what it gives for
    [np.random.normal(v.mean(), v.std(), v.shape)]. *)
Variable np_permutation : nat → list string → list string.
Variable np_normal : nat → vector → vector.

(** [self.features[entity][view]] *)
Definition feature_at {S} (f : pydict (pydict vector)) (entity view : string)
  : M S vector :=
  do views <- subscript f entity in subscript views view.

(** [self.features[entity][view] = v]: the dictionary of the entity is
    updated in place. *)
Definition set_feature_at (entity view : string) (v : vector)
  : M (FeatureDataset * nat) unit :=
  do st <- get in
  do views <- subscript (features st.1) entity in
  put (set_features (dict_set entity (dict_set view v views) (features st.1)) st.1,
       st.2).

(** The dictionary comprehension of the permutation mode, for one
    entity: one permutation is drawn for it and zipped with its views. *)
Definition permuted_views (old : pydict (pydict vector))
    (views_to_randomize : str_or_list) (identifiers : list string)
    (entity : string) : M (FeatureDataset * nat) (pydict vector) :=
  do views <- subscript old entity in
  do st <- get in
  let others := np_permutation st.2 identifiers in
  run put (st.1, S st.2) in
  foldM (λ acc p,
           let '(view, other_entity) := p in
           do v <- (if negb (py_in_any view views_to_randomize)
                    then feature_at old entity view
                    else feature_at old other_entity view) in
           ret (dict_set view v acc))
        (zip (dict_keys views) others) [].

(** The branch of the permutation mode. *)
Definition randomize_permutation (views_to_randomize : str_or_list)
  : M (FeatureDataset * nat) unit :=
  do st <- get in
  let identifiers := get_ids st.1 in
  do new <- foldM (λ acc entity,
                     do vs <- permuted_views (features st.1)
                                views_to_randomize identifiers entity in
                     ret (dict_set entity vs acc))
                  identifiers [] in
  do st <- get in
  put (set_features new st.1, st.2).

(** The branch of the gaussian mode. *)
Definition randomize_gaussian (views : list string)
  : M (FeatureDataset * nat) unit :=
  forM views (λ view,
    do st <- get in
    forM (get_ids st.1) (λ identifier,
      do st <- get in
      do v <- feature_at (features st.1) identifier view in
      run put (st.1, S st.2) in
      set_feature_at identifier view (np_normal st.2 v))).

(** The branch of the zeroing mode. *)
Definition randomize_zeroing (views : list string)
  : M (FeatureDataset * nat) unit :=
  forM views (λ view,
    do st <- get in
    forM (get_ids st.1) (λ identifier,
      do st <- get in
      do v <- feature_at (features st.1) identifier view in
      set_feature_at identifier view (replicate (length v) (Fin 0)))).

Definition randomize_features (views_to_randomize : str_or_list) (mode : string)
  : M (FeatureDataset * nat) unit :=
  (* the function assigns to [views], which makes it a local variable
     that no parameter binds *)
  let views : option str_or_list := None in
  do views0 <- read_local views in
  let views : list string :=
    match views0 with Str s => [s] | Lst l => l end in
  if String.eqb mode "permutation" then
    randomize_permutation views_to_randomize
  else if String.eqb mode "gaussian" then randomize_gaussian views
  else if String.eqb mode "zeroing" then randomize_zeroing views
  else raise ValueError.

(** Modelled from the spec: [randomize_features] of [suite/dataset.py],
    the class that [experiment.py] uses, is not among the sources. It
    randomizes the views it is asked for in one of the three modes; the
    branches are those of [data_wrapper.py]. *)
Definition dataset_randomize_features (views_to_randomize : str_or_list)
    (mode : string) : M (FeatureDataset * nat) unit :=
  let views := match views_to_randomize with Str s => [s] | Lst l => l end in
  if String.eqb mode "permutation" then randomize_permutation (Lst views)
  else if String.eqb mode "gaussian" then randomize_gaussian views
  else if String.eqb mode "zeroing" then randomize_zeroing views
  else raise ValueError.

End Randomize.

(** ** The experiment

    [experiment.py] takes [DrugResponseDataset] and [FeatureDataset] from
    [suite/dataset.py]; the methods of the dataset are those that
    [data_wrapper.py] gives for the class of that name, but for [save],
    which is modelled from the spec. The model, the evaluation, [copy] and
    [randomize_features] of the feature store and the parallel tuner are
    collaborators. *)

Definition loc : Type := nat.

(** One hyperparameter configuration, a [Dict]. *)
Definition hpam : Type := pydict string.

Inductive event : Type :=
  | Makedirs (path : string)
  | Warning (message : string)
  | Saved (path : string) (d : DrugResponseDataset).

Inductive control : Type := Continue | Break.

(** [for a in l: body a], where the body may [break]; the result tells
    whether the loop was left by [break]. *)
Fixpoint for_break {S A} (l : list A) (body : A → M S control) : M S control :=
  match l with
  | [] => ret Continue
  | a :: l' =>
      do c <- body a in
      match c with
      | Continue => for_break l' body
      | Break => ret Break
      end
  end.

(** [os.path.join(a, b)] *)
Definition path_join (a b : string) : string :=
  if String.prefix "/" b then b
  else if String.eqb a "" then b
  else if String.eqb (String.substring (String.length a - 1) 1 a) "/" then a +:+ b
  else a +:+ "/" +:+ b.

Global Instance DrugResponseDataset_inhabited : Inhabited DrugResponseDataset :=
  populate (mkDRD [] [] [] None).

Section Experiment.

(** The state of a model between [train] and [predict]. *)
Context {MS : Type}.

(** The contract of a model. *)
Record DRPModel : Type := mkModel {
  model_name : string;
  early_stopping : bool;
  get_hyperparameter_set : list hpam;
  get_cell_line_features : string → FeatureDataset;
  get_drug_features : string → FeatureDataset;
  train : FeatureDataset → FeatureDataset → DrugResponseDataset →
          option hpam → option DrugResponseDataset → MS → MS;
  predict : list string → list string → FeatureDataset → FeatureDataset →
            MS → list pyfloat
}.

(** The dataset objects by reference, the state of the model, the number
    of draws made from [np.random], and what was written out, in order:
    directories, warnings and saved datasets. *)
Record world : Type := mkWorld {
  heap : gmap loc DrugResponseDataset;
  model_state : MS;
  rng : nat;
  log : list event
}.

Definition set_heap (h : gmap loc DrugResponseDataset) (w : world) :=
  mkWorld h (model_state w) (rng w) (log w).
Definition set_model_state (m : MS) (w : world) :=
  mkWorld (heap w) m (rng w) (log w).
Definition set_rng (n : nat) (w : world) :=
  mkWorld (heap w) (model_state w) n (log w).

(** The object behind a reference; every reference in use is in the heap. *)
Definition deref (l : loc) : M world DrugResponseDataset :=
  λ w, (w, Ok (heap w !!! l)).

(** A method call on the object behind [l]. *)
Definition on {A} (l : loc) (m : M DrugResponseDataset A) : M world A :=
  λ w, let '(d, r) := m (heap w !!! l) in (set_heap (<[l := d]> (heap w)) w, r).

Definition emit (e : event) : M world unit :=
  λ w, (mkWorld (heap w) (model_state w) (rng w) (log w ++ [e]), Ok tt).

(** Modelled from the spec: [save(path)] of the dataset of
    [suite/dataset.py], the class that [experiment.py] uses, is not among
    the sources ([save] of [data_wrapper.py] takes no path and raises
    [NotImplementedError]). The spec has the prediction dataset written to
    the path, one file per path; the write is recorded in the log. *)
Definition save (l : loc) (path : string) : M world unit :=
  do d <- deref l in emit (Saved path d).

(** [hpams[k]], where [hpams] may be [None]. *)
Definition getitem {S} (hpams : option hpam) (k : string) : M S string :=
  match hpams with
  | None => raise TypeError
  | Some d => match dict_get k d with
              | Some v => ret v
              | None => raise KeyError
              end
  end.

Variable np_shuffle : Z → nat → list nat.
Variable model : DRPModel.

(** [evaluate] of [suite/evaluation.py]. *)
Variable evaluate : DrugResponseDataset → list string → pydict pyfloat.

(** [copy] and [randomize_features] of the feature store. *)
Variable FeatureDataset_copy : FeatureDataset → FeatureDataset.
Variable FeatureDataset_randomize_features :
  str_or_list → string → M (FeatureDataset * nat) unit.

(** [hpam_tune_raytune], which hands the trials to the scheduler of ray. *)
Variable hpam_tune_raytune :
  loc → loc → option loc → list hpam → M world (option hpam).

Definition train_and_predict (hpams : option hpam)
    (train_dataset prediction_dataset : loc)
    (early_stopping_dataset : option loc)
    (cl_features drug_features : option FeatureDataset) : M world loc :=
  do cl_features <-
    match cl_features with
    | None => do path <- getitem hpams "feature_path" in
              ret (get_cell_line_features model path)
    | Some f => ret f
    end in
  do drug_features <-
    match drug_features with
    | None => do path <- getitem hpams "feature_path" in
              ret (get_drug_features model path)
    | Some f => ret f
    end in
  run on train_dataset
        (reduce_to (identifiers cl_features) (identifiers drug_features)) in
  run on prediction_dataset
        (reduce_to (identifiers cl_features) (identifiers drug_features)) in
  run match early_stopping_dataset with
      | Some es =>
          on es (reduce_to (identifiers cl_features) (identifiers drug_features))
      | None => ret tt
      end in
  do output <- deref train_dataset in
  do output_earlystopping <-
    match early_stopping_dataset with
    | Some es => do d <- deref es in ret (Some d)
    | None => ret None
    end in
  do w <- get in
  run put (set_model_state
             (train model cl_features drug_features output hpams
                    output_earlystopping (model_state w)) w) in
  do p <- deref prediction_dataset in
  do w <- get in
  run on prediction_dataset
        (put (set_predictions
                (Some (predict model (cell_line_ids p) (drug_ids p)
                               cl_features drug_features (model_state w))) p)) in
  ret prediction_dataset.

Definition train_and_evaluate (hpams : option hpam)
    (train_dataset validation_dataset : loc)
    (early_stopping_dataset : option loc) (metric : string)
  : M world (pydict pyfloat) :=
  do validation_dataset <-
    train_and_predict hpams train_dataset validation_dataset
                      early_stopping_dataset None None in
  do d <- deref validation_dataset in
  ret (evaluate d [metric]).

(** The body of [for hyperparameter in hpam_set], on the pair of
    [best_rmse] and [best_hyperparameters]; the progress line that it
    prints is left out. *)
Definition hpam_tune_step (train_dataset validation_dataset : loc)
    (early_stopping_dataset : option loc) (best : pyfloat * option hpam)
    (hyperparameter : hpam) : M world (pyfloat * option hpam) :=
  let '(best_rmse, best_hyperparameters) := best in
  do scores <- train_and_evaluate (Some hyperparameter) train_dataset
                 validation_dataset early_stopping_dataset "rmse" in
  do rmse <- match dict_get "rmse" scores with
             | Some v => ret v
             | None => raise KeyError
             end in
  if float_ltb rmse best_rmse
  then ret (rmse, Some hyperparameter)
  else ret (best_rmse, best_hyperparameters).

Definition hpam_tune (train_dataset validation_dataset : loc)
    (hpam_set : list hpam) (early_stopping_dataset : option loc)
  : M world (option hpam) :=
  do best <-
    foldM (hpam_tune_step train_dataset validation_dataset early_stopping_dataset)
          hpam_set (PInf, None) in
  ret best.2.

(** The two feature stores that [randomization_test] loads. *)
Record stores : Type := mkStores {
  cl_store : FeatureDataset;
  drug_store : FeatureDataset
}.

(** A computation on the world, run next to local variables. *)
Definition zoom {L A} (m : M world A) : M (L * world) A :=
  λ s, let '(w, r) := m s.2 in ((s.1, w), r).

(** A method call on the cell-line store, or on the drug store. *)
Definition on_cl_store {A} (m : M (FeatureDataset * nat) A)
  : M (stores * world) A :=
  λ s, let '((f, n), r) := m (cl_store s.1, rng s.2) in
       ((mkStores f (drug_store s.1), set_rng n s.2), r).
Definition on_drug_store {A} (m : M (FeatureDataset * nat) A)
  : M (stores * world) A :=
  λ s, let '((f, n), r) := m (drug_store s.1, rng s.2) in
       ((mkStores (cl_store s.1) f, set_rng n s.2), r).

Definition not_found_message (view test_name : string) : string :=
  "View " +:+ view +:+ " not found in features. Skipping randomization test "
    +:+ test_name +:+ " which includes this view.".

Definition split_file (test_mode : string) (split_index : nat) : string :=
  "test_dataset_" +:+ test_mode +:+ "_split_" +:+ pretty split_index +:+ ".csv".

(** The body of [for view in views]. *)
Definition randomization_view (hpam_set : option hpam)
    (train_dataset test_dataset : loc) (early_stopping_dataset : option loc)
    (split_index : nat) (test_mode : string)
    (test_name randomization_test_path view : string)
  : M (stores * world) control :=
  do s <- get in
  let cl_features_rand := FeatureDataset_copy (cl_store s.1) in
  let drug_features_rand := FeatureDataset_copy (drug_store s.1) in
  do cl_views <- lift (get_view_names (cl_store s.1)) in
  do found <-
    (if py_in view cl_views then
       run on_cl_store (FeatureDataset_randomize_features (Str view) "gaussian") in
       ret true
     else
       do drug_views <- lift (get_view_names (drug_store s.1)) in
       if py_in view drug_views then
         run on_drug_store
               (FeatureDataset_randomize_features (Str view) "gaussian") in
         ret true
       else
         run zoom (emit (Warning (not_found_message view test_name))) in
         ret false) in
  if found : bool then
    do test_dataset_rand <-
      zoom (train_and_predict hpam_set train_dataset test_dataset
              early_stopping_dataset (Some cl_features_rand)
              (Some drug_features_rand)) in
    run zoom (save test_dataset_rand
                      (path_join randomization_test_path
                                 (split_file test_mode split_index))) in
    ret Continue
  else ret Break.

(** The body of [for test_name, views in randomization_test_views.items()]. *)
Definition randomization_group (hpam_set : option hpam)
    (train_dataset test_dataset : loc) (early_stopping_dataset : option loc)
    (path_out : string) (split_index : nat) (test_mode : string)
    (group : string * list string) : M (stores * world) unit :=
  let '(test_name, views) := group in
  let randomization_test_path := path_join path_out test_name in
  run zoom (emit (Makedirs randomization_test_path)) in
  run for_break views
        (randomization_view hpam_set train_dataset test_dataset
           early_stopping_dataset split_index test_mode test_name
           randomization_test_path) in
  ret tt.

Definition randomization_test (randomization_test_views : pydict (list string))
    (hpam_set : option hpam) (train_dataset test_dataset : loc)
    (early_stopping_dataset : option loc) (path_out : string)
    (split_index : nat) (test_mode : string) : M world unit :=
  do path <- getitem hpam_set "feature_path" in
  let cl_features := get_cell_line_features model path in
  do path <- getitem hpam_set "feature_path" in
  let drug_features := get_drug_features model path in
  λ w,
    let '(s, r) :=
      forM randomization_test_views
        (randomization_group hpam_set train_dataset test_dataset
           early_stopping_dataset path_out split_index test_mode)
        (mkStores cl_features drug_features, w) in
    (s.2, r).

(** [early_stopping_dataset if model.early_stopping else None], where
    [early_stopping_dataset] is the local variable, bound only when the
    model stops early. *)
Definition early_stopping_or_none (early_stopping_dataset : option loc)
  : M world (option loc) :=
  if early_stopping model
  then do es <- read_local early_stopping_dataset in ret (Some es)
  else ret None.

(** The body of [for split_index, split in enumerate(...)], from the
    tuning on; [randomization_test_path] is bound only when there are
    randomization tests. *)
Definition drug_response_experiment_split (multiprocessing : bool)
    (test_mode : string)
    (randomization_test_views : option (pydict (list string)))
    (predictions_path : string) (randomization_test_path : option string)
    (model_hpam_set : list hpam) (split_index : nat)
    (train_dataset validation_dataset test_dataset : loc)
    (early_stopping_dataset : option loc) : M world unit :=
  do best_hpams <-
    (if multiprocessing then
       do es <- early_stopping_or_none early_stopping_dataset in
       hpam_tune_raytune train_dataset validation_dataset es model_hpam_set
     else
       do es <- early_stopping_or_none early_stopping_dataset in
       hpam_tune train_dataset validation_dataset model_hpam_set es) in
  do other <- deref validation_dataset in
  run on train_dataset (add_rows other) in
  run on train_dataset (shuffle np_shuffle 42) in
  do es <- early_stopping_or_none early_stopping_dataset in
  do test_dataset <-
    train_and_predict best_hpams train_dataset test_dataset es None None in
  run save test_dataset
           (path_join predictions_path (split_file test_mode split_index)) in
  match randomization_test_views with
  | Some (g :: gs) =>
      do es <- read_local early_stopping_dataset in
      do path_out <- read_local randomization_test_path in
      randomization_test (g :: gs) best_hpams train_dataset test_dataset
        (Some es) path_out split_index test_mode
  | _ => ret tt
  end.

End Experiment.

(** The operations of the length invariant. *)
Inductive operation : Type :=
  | OpRemoveDrugs (drugs_to_remove : str_or_list)
  | OpRemoveCellLines (cell_lines_to_remove : str_or_list)
  | OpReduceTo (cell_line_ids' drug_ids' : list string)
  | OpShuffle (random_state : Z)
  | OpAddRows (other : DrugResponseDataset).

Definition apply_operation (np_shuffle : Z → nat → list nat) (op : operation)
  : M DrugResponseDataset unit :=
  match op with
  | OpRemoveDrugs x => remove_drugs x
  | OpRemoveCellLines x => remove_cell_lines x
  | OpReduceTo c d => reduce_to c d
  | OpShuffle seed => shuffle np_shuffle seed
  | OpAddRows other => add_rows other
  end.

(** The operations that drop rows. *)
Definition is_filter (op : operation) : bool :=
  match op with
  | OpRemoveDrugs _ | OpRemoveCellLines _ | OpReduceTo _ _ => true
  | OpShuffle _ | OpAddRows _ => false
  end.

(** The three arrays are parallel. *)
Definition parallel (d : DrugResponseDataset) : Prop :=
  length (cell_line_ids d) = length (response d) ∧
  length (drug_ids d) = length (response d).

(** The predictions, when present, are as long as the response. *)
Definition predictions_aligned (d : DrugResponseDataset) : Prop :=
  match predictions d with
  | Some p => length p = length (response d)
  | None => True
  end.

(** The rows of [d] selected by [mask]; the predictions are not indexed. *)
Definition select_rows (mask : list bool) (d : DrugResponseDataset) :=
  mkDRD (mask_filter (response d) mask) (mask_filter (cell_line_ids d) mask)
        (mask_filter (drug_ids d) mask) (predictions d).

(** The rows of [d] whose drug is in [drug_ids'], and of those the rows
    whose cell line is in [cell_line_ids']. *)
Definition keep_listed (cell_line_ids' drug_ids' : list string)
    (d : DrugResponseDataset) : DrugResponseDataset :=
  let d1 := select_rows (map (λ drug, py_in drug drug_ids') (drug_ids d)) d in
  select_rows (map (λ cell_line, py_in cell_line cell_line_ids')
                   (cell_line_ids d1)) d1.

(** The invariant of the data model. *)
Definition well_formed (d : DrugResponseDataset) : Prop :=
  parallel d ∧ predictions_aligned d.

(** The dataset that [add_rows] is given is well formed too. *)
Definition operand_well_formed (op : operation) : Prop :=
  match op with
  | OpAddRows other => well_formed other
  | _ => True
  end.

(** Where the operations keep the predictions in step with the arrays:
    [shuffle] always; [add_rows] when there are none or [other] carries
    some as well; a filter when there are none. *)
Definition predictions_followed (op : operation) (d : DrugResponseDataset) : Prop :=
  match op with
  | OpShuffle _ => True
  | OpAddRows other => predictions d = None ∨ is_Some (predictions other)
  | _ => predictions d = None
  end.

(** A float from an integer. *)
Definition fl (z : Z) : pyfloat := Fin (Qc_of_Z z).

(** A generator that reverses. *)
Definition reversing_shuffle (seed : Z) (n : nat) : list nat := reverse (seq 0 n).

Definition ds_three : DrugResponseDataset :=
  mkDRD [fl 1; fl 2; fl 3] ["c1"; "c2"; "c3"] ["d1"; "d2"; "d1"] None.

Definition ds_predicted : DrugResponseDataset :=
  mkDRD [fl 1; fl 2] ["c1"; "c2"] ["d1"; "d2"] (Some [fl 5; fl 6]).

Definition ds_one : DrugResponseDataset :=
  mkDRD [fl 4] ["c4"] ["d4"] None.

(** ** What a training run leaves behind *)

(** Every dataset of the heap has parallel arrays. *)
Definition heap_parallel (h : gmap loc DrugResponseDataset) : Prop :=
  ∀ l, parallel (h !!! l).

(** The heap after [reduce_to] on the object behind [l]. *)
Definition reduced_at (cl dr : list string) (l : loc)
    (h : gmap loc DrugResponseDataset) : gmap loc DrugResponseDataset :=
  <[l := keep_listed cl dr (h !!! l)]> h.

(** The feature store that [train_and_predict] works with: the one it is
    given, or else the one the model loads from [hpams["feature_path"]]. *)
Definition features_used (load : string → FeatureDataset) (hpams : option hpam)
    (given : option FeatureDataset) : option FeatureDataset :=
  match given with
  | Some f => Some f
  | None => match hpams with
            | Some h => load <$> dict_get "feature_path" h
            | None => None
            end
  end.

Definition trained_world {MS} (model : DRPModel (MS := MS)) (hpams : option hpam)
    (t p : loc) (es : option loc) (F G : FeatureDataset) (w : world) : world :=
  let cl := identifiers F in
  let dr := identifiers G in
  let h1 := reduced_at cl dr t (heap w) in
  let h2 := reduced_at cl dr p h1 in
  let h3 := match es with Some e => reduced_at cl dr e h2 | None => h2 end in
  let ms := train model F G (h3 !!! t) hpams ((λ e, h3 !!! e) <$> es)
                  (model_state w) in
  let P := h3 !!! p in
  mkWorld (<[p := set_predictions
                    (Some (predict model (cell_line_ids P) (drug_ids P) F G ms)) P]>
             h3)
          ms (rng w) (log w).

(** The dataset [d] after the [reduce_to] of an evaluation of the
    configuration [h]: its rows whose cell line and drug are among the
    identifiers of the features that [h["feature_path"]] names. Without
    that key the evaluation raises before it reduces anything. *)
Definition reduced_for {MS} (model : DRPModel (MS := MS))
    (d : DrugResponseDataset) (h : hpam) : DrugResponseDataset :=
  match dict_get "feature_path" h with
  | Some path => keep_listed (identifiers (get_cell_line_features model path))
                             (identifiers (get_drug_features model path)) d
  | None => d
  end.

(** ** What the tuner selects *)

(** One turn of the loop of [hpam_tune], for a score known beforehand. *)
Definition better (score : hpam → pyfloat) (best : pyfloat * option hpam)
    (h : hpam) : pyfloat * option hpam :=
  if float_ltb (score h) best.1 then (score h, Some h) else best.

Definition select_best (score : hpam → pyfloat) (l : list hpam)
  : pyfloat * option hpam :=
  foldl (better score) (PInf, None) l.

(** [h] is at index [i] of [l], no configuration of [l] has an rmse
    below that of [h], and every configuration before [i] has an rmse
    above it, or NaN. *)
Definition first_minimum (score : hpam → pyfloat) (l : list hpam) (i : nat)
    (h : hpam) : Prop :=
  l !! i = Some h
  ∧ (∀ h', h' ∈ l → float_ltb (score h') (score h) = false)
  ∧ (∀ j h', j < i → l !! j = Some h' →
       float_ltb (score h) (score h') = true ∨ score h' = NaN).

(** What the loop holds after the configurations of [l]: the first
    minimum and its rmse, which is below [+inf]; or nothing, when no rmse
    of [l] is below [+inf]. *)
Definition selected (score : hpam → pyfloat) (l : list hpam)
    (best : pyfloat * option hpam) : Prop :=
  match best.2 with
  | Some h => best.1 = score h ∧ float_ltb (score h) PInf = true
              ∧ ∃ i, first_minimum score l i h
  | None => best.1 = PInf ∧ ∀ h, h ∈ l → float_ltb (score h) PInf = false
  end.

(** The objective of the tuner is deterministic on [l]: from every world
    that satisfies [Inv], the evaluation of a configuration [h] of [l]
    returns the rmse [score h] and leaves a world that satisfies [Inv]. *)
Definition deterministic_objective {MS} (model : DRPModel (MS := MS))
    (evaluate : DrugResponseDataset → list string → pydict pyfloat)
    (t v : loc) (es : option loc) (Inv : world → Prop) (score : hpam → pyfloat)
    (l : list hpam) : Prop :=
  ∀ h w, h ∈ l → Inv w →
    ∃ w' scores,
      train_and_evaluate model evaluate (Some h) t v es "rmse" w = (w', Ok scores)
      ∧ dict_get "rmse" scores = Some (score h) ∧ Inv w'.

(** Modelled from the spec: [copy] of the feature store of
    [suite/dataset.py] is not among the sources; the randomized variant
    is a value copy of the store. *)
Definition value_copy (f : FeatureDataset) : FeatureDataset := f.

(** ** A small model and its data *)

Definition toy_cl : FeatureDataset :=
  mkFD [("c1", [("expr", [fl 1; fl 2])]); ("c2", [("expr", [fl 3; fl 4])])]
       ["expr"] ["c1"; "c2"].

Definition toy_drug : FeatureDataset :=
  mkFD [("d1", [("fingerprint", [fl 7])]); ("d2", [("fingerprint", [fl 8])])]
       ["fingerprint"] ["d1"; "d2"].

(** The model remembers what it was last trained with. *)
Definition toy_state : Type := option (FeatureDataset * FeatureDataset * option hpam).

(** It predicts the length of its hyperparameter [alpha] for every pair. *)
Definition toy_level (ms : toy_state) : pyfloat :=
  match ms with
  | Some (_, _, Some h) => fl (Z.of_nat (String.length (default "" (dict_get "alpha" h))))
  | _ => fl 0
  end.

Definition toy_model : DRPModel (MS := toy_state) :=
  mkModel "toy" false [] (λ _, toy_cl) (λ _, toy_drug)
          (λ f g _ h _ _, Some (f, g, h))
          (λ cls _ _ _ ms, map (λ _, toy_level ms) cls).

(** The score is the first prediction. *)
Definition toy_evaluate (d : DrugResponseDataset) (metric : list string)
  : pydict pyfloat :=
  [("rmse", hd PInf (default [] (predictions d)))].

(** An evaluation that overflows. *)
Definition overflowing_evaluate (d : DrugResponseDataset) (metric : list string)
  : pydict pyfloat :=
  [("rmse", PInf)].

Definition toy_normal (k : nat) (v : vector) : vector :=
  replicate (length v) (fl (Z.of_nat k + 9)).

Definition toy_permutation (k : nat) (l : list string) : list string := reverse l.

Definition no_raytune : loc → loc → option loc → list hpam →
                        M (world (MS := toy_state)) (option hpam) :=
  λ _ _ _ _, ret None.

Definition cfg (alpha : string) : hpam :=
  [("feature_path", "features/"); ("alpha", alpha)].

Definition toy_train : DrugResponseDataset :=
  mkDRD [fl 1; fl 2; fl 3] ["c1"; "c2"; "c3"] ["d1"; "d2"; "d1"] None.
Definition toy_validation : DrugResponseDataset :=
  mkDRD [fl 4; fl 5] ["c1"; "c9"] ["d2"; "d1"] None.
Definition toy_test : DrugResponseDataset :=
  mkDRD [fl 6] ["c2"] ["d1"] None.

(** Train, validation and test datasets behind the references 0, 1, 2. *)
Definition toy_world : world (MS := toy_state) :=
  mkWorld {[ 0 := toy_train; 1 := toy_validation; 2 := toy_test ]} None 0 [].

(** Three configurations; the last two tie on the lowest score. *)
Definition toy_grid : list hpam := [cfg "aa"; cfg "b"; cfg "c"].

Definition toy_score (h : hpam) : Qc :=
  Qc_of_Z (Z.of_nat (String.length (default "" (dict_get "alpha" h)))).

(** The world after the evaluation of one configuration. *)
Definition toy_after (alpha : string) : world (MS := toy_state) :=
  (train_and_evaluate toy_model toy_evaluate (Some (cfg alpha)) 0 1 None "rmse"
                      toy_world).1.

(** The worlds that the tuner goes through on [toy_grid]. *)
Definition toy_reachable (w : world (MS := toy_state)) : Prop :=
  w ∈ [toy_world; toy_after "aa"; toy_after "b"; toy_after "c"].

(** The randomization tests of the small model: references 0 and 2 are
    the train and the test dataset. *)
Definition toy_randomize : str_or_list → string → M (FeatureDataset * nat) unit :=
  dataset_randomize_features toy_permutation toy_normal.

Definition toy_view : string → string → string →
                      M (stores * world (MS := toy_state)) control :=
  randomization_view toy_model value_copy toy_randomize (Some (cfg "aa")) 0 2 None
                     0 "LPO".

Definition toy_group : string * list string → M (stores * world (MS := toy_state)) unit :=
  randomization_group toy_model value_copy toy_randomize (Some (cfg "aa")) 0 2 None
                      "out" 0 "LPO".

Definition toy_stores : stores := mkStores toy_cl toy_drug.

(** The state after the view [expr] of the test [t1]. *)
Definition toy_after_expr : stores * world (MS := toy_state) :=
  (for_break ["expr"] (toy_view "t1" (path_join "out" "t1"))
             (toy_stores, (emit (Makedirs (path_join "out" "t1")) toy_world).1)).1.

(** The cell-line store after the gaussian randomization of [expr]. *)
Definition toy_cl_perturbed : FeatureDataset :=
  (toy_randomize (Str "expr") "gaussian" (toy_cl, 0)).1.1.

(** ** Rows *)

(** The rows of a dataset: the cell line, the drug and the response at
    each index. *)
Definition rows (d : DrugResponseDataset) : list (string * string * pyfloat) :=
  zip (zip (cell_line_ids d) (drug_ids d)) (response d).

(** The list that a filter works with: [if isinstance(x, str): x = [x]]. *)
Definition listed (x : str_or_list) : list string :=
  match x with Str s => [s] | Lst l => l end.

(** ** get_feature_matrix *)

(** What a failed [assert] of [get_feature_matrix] reports: the view, or
    the number of missing ids, the number of distinct ids asked for and
    the set of the missing ids. *)
Inductive assertion : Type :=
  | ViewNotInDataset (view : string)
  | IdsNotInDataset (n_missing n_asked : nat) (missing : gset string).

Inductive matrix_error : Type :=
  | AssertionError (message : assertion)
  | Raised (e : exn).

(** [np.stack(arrays, axis=0)] for arrays of one dimension: there must be
    one array at least, and all of one shape. *)
Definition np_stack (arrays : list vector) : result (list vector) :=
  match arrays with
  | [] => Raise ValueError
  | a :: rest =>
      if forallb (λ b, length b =? length a) rest then Ok arrays
      else Raise ValueError
  end.

(** [self.features[id_][view]] *)
Definition feature_of (self : FeatureDataset) (view id_ : string) : option vector :=
  dict_get id_ (features self) ≫= dict_get view.

Definition get_feature_matrix (self : FeatureDataset) (view : string)
    (identifiers' : list string) : matrix_error + list vector :=
  if negb (py_in view (view_names self))
  then inl (AssertionError (ViewNotInDataset view))
  else
    let missing_identifiers : gset string :=
      list_to_set (filter (λ id_, id_ ∉ identifiers self) identifiers') in
    if decide (missing_identifiers ≠ ∅)
    then inl (AssertionError
                (IdsNotInDataset (size missing_identifiers)
                   (size (list_to_set identifiers' : gset string))
                   missing_identifiers))
    else
      match mapM (feature_of self view) identifiers' with
      | None => inl (Raised KeyError)
      | Some arrays =>
          match np_stack arrays with
          | Ok m => inr m
          | Raise e => inl (Raised e)
          end
      end.

(** A store as [__init__] leaves one built from entities that all have
    the same views, with vectors of one length per view. *)
Definition store_consistent (self : FeatureDataset) : Prop :=
  identifiers self = dict_keys (features self)
  ∧ ∀ view, view ∈ view_names self →
      ∃ n, ∀ id_ views, dict_get id_ (features self) = Some views →
             ∃ v, dict_get view views = Some v ∧ length v = n.

(** ** split_early_stopping *)

(** The float [0.1], the default of [validation_ratio]. *)
Definition default_validation_ratio : pyfloat :=
  Fin (Q2Qc (3602879701896397 # 36028797018963968)).

Section EarlyStopping.

Variable np_shuffle : Z → nat → list nat.

(** The splitters of [utils]; a fold is a dictionary of datasets. *)
Variable leave_pair_out_cv :
  nat → list pyfloat → list string → list string → bool → pyfloat → Z →
  result (list (pydict DrugResponseDataset)).
Variable leave_group_out_cv :
  string → nat → list pyfloat → list string → list string → bool →
  pyfloat → Z → result (list (pydict DrugResponseDataset)).

(** The state is the validation dataset with its attribute [cv_splits];
    the two datasets returned are those of the first fold. *)
Definition split_early_stopping (test_mode : string)
  : M (DrugResponseDataset * option (list (pydict DrugResponseDataset)))
      (DrugResponseDataset * DrugResponseDataset) :=
  run (λ st, let '(d, r) := shuffle np_shuffle 42 st.1 in ((d, st.2), r)) in
  do cv_v <- split_dataset (pydict DrugResponseDataset) leave_pair_out_cv
               leave_group_out_cv 4 test_mode false default_validation_ratio 42 in
  do first <- match cv_v with
              | [] => raise IndexError
              | f :: _ => ret f
              end in
  do validation_dataset <- subscript first "train" in
  do early_stopping_dataset <- subscript first "test" in
  ret (validation_dataset, early_stopping_dataset).

End EarlyStopping.

(** * Properties *)

(** ** Boolean and integer indexing *)

Ltac monad_unfold :=
  unfold bind, get, put, ret, lift, raise, read_local in *; simpl in *.

Lemma bool_index_parallel {A} (xs : list A) (mask : list bool) :
  length mask = length xs → bool_index xs mask = Ok (mask_filter xs mask).
Proof.
  intros H. destruct mask as [|b mask]; simpl.
  - by destruct xs.
  - destruct xs as [|x xs]; [done|]. by rewrite decide_True.
Qed.

Lemma mask_filter_length {A B} (xs : list A) (ys : list B) (mask : list bool) :
  length xs = length ys →
  length (mask_filter xs mask) = length (mask_filter ys mask).
Proof.
  revert ys mask. induction xs as [|x xs IH]; intros [|y ys] [|b mask] H;
    simpl in *; try done.
  destruct b; simpl; auto.
Qed.

Lemma mask_filter_Forall {A} (P : A → Prop) (xs : list A) (mask : list bool) :
  Forall P xs → Forall P (mask_filter xs mask).
Proof.
  intros H. revert mask. induction H as [|x xs Hx _ IH]; intros [|b mask];
    simpl; try constructor.
  destruct b; auto.
Qed.

Lemma mask_filter_map_self {A} (p : A → bool) (xs : list A) :
  Forall (λ x, p x = true) (mask_filter xs (map p xs)).
Proof.
  induction xs as [|x xs IH]; simpl; [constructor|].
  destruct (p x) eqn:E; auto.
Qed.

Lemma mask_filter_all_true {A B} (p : B → bool) (xs : list A) (ks : list B) :
  length ks = length xs → Forall (λ k, p k = true) ks →
  mask_filter xs (map p ks) = xs.
Proof.
  intros Hl Hk. revert xs Hl. induction Hk as [|k ks Hk _ IH];
    intros [|x xs] Hl; simpl in *; try done.
  rewrite Hk. f_equal. apply IH. lia.
Qed.

Lemma int_index_length {A} (xs : list A) (indices : list nat) r :
  int_index xs indices = Ok r → length r = length indices.
Proof.
  revert r. induction indices as [|i indices IH]; intros r; simpl.
  - by intros [= <-].
  - destruct (xs !! i); [|done]. destruct (int_index xs indices); [|done].
    intros [= <-]. simpl. f_equal. by apply IH.
Qed.

Lemma int_index_in_range {A} (xs : list A) (indices : list nat) :
  Forall (λ i, i < length xs) indices → ∃ r, int_index xs indices = Ok r.
Proof.
  induction 1 as [|i indices Hi _ [r IH]]; simpl; [by eexists|].
  destruct (lookup_lt_is_Some_2 xs i Hi) as [x ->]. rewrite IH. by eexists.
Qed.

(** ** The operations on well-formed datasets *)

Lemma select_rows_parallel mask d : parallel d → parallel (select_rows mask d).
Proof.
  intros [H1 H2]. split; simpl; by apply mask_filter_length.
Qed.

Lemma remove_drugs_select x d :
  parallel d →
  remove_drugs x d =
    (select_rows
       (map (λ drug, negb (py_in drug match x with Str s => [s] | Lst l => l end))
            (drug_ids d)) d, Ok tt).
Proof.
  intros [H1 H2]. unfold remove_drugs. monad_unfold.
  rewrite !bool_index_parallel by (rewrite length_map; congruence).
  done.
Qed.

Lemma remove_cell_lines_select x d :
  parallel d →
  remove_cell_lines x d =
    (select_rows
       (map (λ cell_line,
               negb (py_in cell_line match x with Str s => [s] | Lst l => l end))
            (cell_line_ids d)) d, Ok tt).
Proof.
  intros [H1 H2]. unfold remove_cell_lines. monad_unfold.
  rewrite !bool_index_parallel by (rewrite length_map; congruence).
  done.
Qed.

Lemma removal_mask (ids whitelist : list string) :
  map (λ x, negb (py_in x (filter (λ y, ¬ y ∈ whitelist) ids))) ids =
  map (λ x, py_in x whitelist) ids.
Proof.
  apply map_ext_in. intros x Hx%list_elem_of_In. unfold py_in.
  destruct (bool_decide_reflect (x ∈ whitelist)) as [Hin|Hout].
  - apply negb_true_iff, bool_decide_eq_false.
    rewrite list_elem_of_filter. tauto.
  - apply negb_false_iff, bool_decide_eq_true.
    rewrite list_elem_of_filter. tauto.
Qed.

Lemma reduce_to_select cl dr d :
  parallel d → reduce_to cl dr d = (keep_listed cl dr d, Ok tt).
Proof.
  intros Hd. unfold reduce_to, bind at 1, get at 1.
  unfold bind at 1. rewrite remove_drugs_select by done.
  unfold bind, get. rewrite remove_cell_lines_select.
  - unfold keep_listed. by rewrite !removal_mask.
  - by apply select_rows_parallel.
Qed.

Lemma keep_listed_parallel cl dr d : parallel d → parallel (keep_listed cl dr d).
Proof. intros Hd. unfold keep_listed. by do 2 apply select_rows_parallel. Qed.

Lemma keep_listed_drugs cl dr d :
  Forall (λ drug, py_in drug dr = true) (drug_ids (keep_listed cl dr d)).
Proof.
  unfold keep_listed. simpl. apply mask_filter_Forall, mask_filter_map_self.
Qed.

Lemma keep_listed_cell_lines cl dr d :
  Forall (λ cell_line, py_in cell_line cl = true)
         (cell_line_ids (keep_listed cl dr d)).
Proof. unfold keep_listed. simpl. apply mask_filter_map_self. Qed.

Lemma select_rows_all_true (p : string → bool) (ks : list string) d :
  parallel d → length ks = length (response d) →
  Forall (λ k, p k = true) ks → select_rows (map p ks) d = d.
Proof.
  intros [H1 H2] Hl Hk. destruct d as [r c g q]. unfold select_rows.
  cbn [response cell_line_ids drug_ids predictions] in *.
  rewrite !(mask_filter_all_true p); auto; congruence.
Qed.

Lemma keep_listed_fixed cl dr d :
  parallel d →
  Forall (λ drug, py_in drug dr = true) (drug_ids d) →
  Forall (λ cell_line, py_in cell_line cl = true) (cell_line_ids d) →
  keep_listed cl dr d = d.
Proof.
  intros Hd Hdr Hcl. unfold keep_listed.
  rewrite (select_rows_all_true (λ drug, py_in drug dr)); auto; [|apply Hd].
  rewrite (select_rows_all_true (λ cell_line, py_in cell_line cl)); auto.
  apply Hd.
Qed.

Lemma keep_listed_idempotent cl dr d :
  parallel d → keep_listed cl dr (keep_listed cl dr d) = keep_listed cl dr d.
Proof.
  intros Hd. apply keep_listed_fixed.
  - by apply keep_listed_parallel.
  - apply keep_listed_drugs.
  - apply keep_listed_cell_lines.
Qed.

(** C9: on a dataset whose three arrays are parallel, [reduce_to] called
    twice with the same whitelists returns normally and leaves the
    dataset that one call leaves. *)
Theorem reduce_to_idempotent cl dr d :
  parallel d →
  bind (reduce_to cl dr) (λ _, reduce_to cl dr) d = reduce_to cl dr d
  ∧ ∃ d', reduce_to cl dr d = (d', Ok tt).
Proof.
  intros Hd. unfold bind. rewrite reduce_to_select by done. split; [|eauto].
  rewrite reduce_to_select by (by apply keep_listed_parallel).
  by rewrite keep_listed_idempotent.
Qed.

Lemma reduce_to_idempotent_witness :
  parallel ds_three ∧
  (bind (reduce_to ["c1"; "c3"] ["d1"]) (λ _, reduce_to ["c1"; "c3"] ["d1"]) ds_three
   = reduce_to ["c1"; "c3"] ["d1"] ds_three
   ∧ ∃ d', reduce_to ["c1"; "c3"] ["d1"] ds_three = (d', Ok tt)).
Proof.
  assert (parallel ds_three) as H by (split; reflexivity).
  split; [exact H|]. exact (reduce_to_idempotent ["c1"; "c3"] ["d1"] ds_three H).
Defined.

(** ** add_rows *)

Lemma add_rows_result other d :
  add_rows other d =
    (mkDRD (response d ++ response other)
           (cell_line_ids d ++ cell_line_ids other)
           (drug_ids d ++ drug_ids other)
           match predictions d, predictions other with
           | Some p, Some q => Some (p ++ q)
           | _, _ => predictions d
           end, Ok tt).
Proof.
  destruct d as [r c g [p|]], other as [r' c' g' [q|]]; reflexivity.
Qed.

(** C5, as the code has it: when [self] carries no predictions or
    [other] carries some, [add_rows] returns normally and appends the
    response and both arrays of identifiers of [other]; it appends the
    predictions when both datasets carry some, and when only [other]
    carries predictions the merged dataset has none. *)
Theorem add_rows_appends other d :
  predictions d = None ∨ is_Some (predictions other) →
  ∃ d', add_rows other d = (d', Ok tt)
    ∧ response d' = response d ++ response other
    ∧ cell_line_ids d' = cell_line_ids d ++ cell_line_ids other
    ∧ drug_ids d' = drug_ids d ++ drug_ids other
    ∧ predictions d' =
        match predictions d, predictions other with
        | Some p, Some q => Some (p ++ q)
        | _, _ => None
        end.
Proof.
  intros H. rewrite add_rows_result. eexists. repeat split. simpl.
  destruct (predictions d) as [p|]; [|done].
  destruct H as [H|[q ->]]; done.
Qed.

Lemma add_rows_appends_witness :
  (predictions ds_one = None ∨ is_Some (predictions ds_predicted)) ∧
  ∃ d', add_rows ds_predicted ds_one = (d', Ok tt)
    ∧ response d' = response ds_one ++ response ds_predicted
    ∧ cell_line_ids d' = cell_line_ids ds_one ++ cell_line_ids ds_predicted
    ∧ drug_ids d' = drug_ids ds_one ++ drug_ids ds_predicted
    ∧ predictions d' =
        match predictions ds_one, predictions ds_predicted with
        | Some p, Some q => Some (p ++ q)
        | _, _ => None
        end.
Proof.
  assert (predictions ds_one = None ∨ is_Some (predictions ds_predicted)) as H
    by (left; reflexivity).
  split; [exact H|]. exact (add_rows_appends ds_predicted ds_one H).
Defined.

(** C5, as stated, fails: [other] carries predictions, [self] does not,
    as when the fold adds the predicted validation dataset to the train
    dataset, and [add_rows] returns normally. *)
Lemma add_rows_one_sided_no_failure :
  ¬ (∀ d other : DrugResponseDataset,
       (is_Some (predictions d) ∧ predictions other = None) ∨
       (predictions d = None ∧ is_Some (predictions other)) →
       ∃ d' e, add_rows other d = (d', Raise e)).
Proof.
  intros H. destruct (H ds_one ds_predicted) as (d' & e & E).
  - right. split; [done|by eexists].
  - rewrite add_rows_result in E. discriminate E.
Qed.

(** The merged dataset of that case. *)
Example add_rows_drops_predictions_of_other :
  add_rows ds_predicted ds_one
  = (mkDRD [fl 4; fl 1; fl 2] ["c4"; "c1"; "c2"] ["d4"; "d1"; "d2"] None, Ok tt).
Proof. reflexivity. Qed.

(** ** The length invariant *)

Section Shuffle.

Variable np_shuffle : Z → nat → list nat.
Hypothesis np_shuffle_permutation : ∀ seed n, np_shuffle seed n ≡ₚ seq 0 n.

Lemma np_shuffle_length seed n : length (np_shuffle seed n) = n.
Proof. by rewrite np_shuffle_permutation, length_seq. Qed.

Lemma np_shuffle_in_range seed n : Forall (λ i, i < n) (np_shuffle seed n).
Proof.
  rewrite np_shuffle_permutation. apply Forall_seq. intros; lia.
Qed.

Lemma shuffle_well_formed seed d :
  well_formed d →
  ∃ d', shuffle np_shuffle seed d = (d', Ok tt) ∧ well_formed d'.
Proof.
  intros [[H1 H2] Hp]. unfold shuffle. monad_unfold.
  set (n := length (response d)) in *.
  pose proof (np_shuffle_in_range seed n) as Hr.
  destruct (int_index_in_range (response d) _ Hr) as [r Er].
  destruct (int_index_in_range (cell_line_ids d) (np_shuffle seed n)) as [c Ec];
    [by rewrite H1|].
  destruct (int_index_in_range (drug_ids d) (np_shuffle seed n)) as [g Eg];
    [by rewrite H2|].
  rewrite Er, Ec, Eg.
  apply int_index_length in Er as Lr, Ec as Lc, Eg as Lg.
  unfold predictions_aligned in Hp.
  destruct (predictions d) as [p|] eqn:Ep.
  - destruct (int_index_in_range p (np_shuffle seed n)) as [q Eq];
      [by rewrite Hp|].
    rewrite Eq. apply int_index_length in Eq as Lq.
    eexists; split; [done|].
    repeat split; unfold predictions_aligned; simpl; congruence.
  - eexists; split; [done|].
    repeat split; unfold predictions_aligned; simpl; try congruence.
    by rewrite Ep.
Qed.

End Shuffle.

Lemma select_rows_well_formed mask d :
  parallel d → predictions d = None → well_formed (select_rows mask d).
Proof.
  intros Hd Hp. split; [by apply select_rows_parallel|].
  unfold predictions_aligned. simpl. by rewrite Hp.
Qed.

Lemma add_rows_parallel other d :
  parallel d → parallel other → parallel (add_rows other d).1.
Proof.
  intros [H1 H2] [H3 H4]. rewrite add_rows_result. split; simpl;
    rewrite !length_app; congruence.
Qed.

Lemma add_rows_aligned other d :
  predictions_aligned d → predictions_aligned other →
  predictions d = None ∨ is_Some (predictions other) →
  predictions_aligned (add_rows other d).1.
Proof.
  unfold predictions_aligned. intros Hd Ho Hc. rewrite add_rows_result. simpl.
  destruct (predictions d) as [p|].
  - destruct Hc as [|[q Eq]]; [done|]. rewrite Eq in *.
    rewrite !length_app. congruence.
  - done.
Qed.

(** On a well-formed dataset every filter, [shuffle] and [add_rows] of a
    well-formed dataset return normally and leave the three arrays
    parallel; the predictions stay as long as the arrays after [shuffle],
    after [add_rows] when [self] has none or [other] has some too, and
    after a filter when there are none. *)
Lemma operations_keep_arrays_parallel
    (np_shuffle : Z → nat → list nat) (op : operation) (d : DrugResponseDataset) :
  (∀ seed n, np_shuffle seed n ≡ₚ seq 0 n) →
  well_formed d → operand_well_formed op →
  ∃ d', apply_operation np_shuffle op d = (d', Ok tt)
    ∧ parallel d'
    ∧ (predictions_followed op d → predictions_aligned d').
Proof.
  intros Hperm [Hd Hp] Hop. destruct op as [x|x|cl dr|seed|other]; simpl in *.
  - rewrite remove_drugs_select by done. eexists; split; [done|].
    split; [by apply select_rows_parallel|].
    intros E. by apply select_rows_well_formed.
  - rewrite remove_cell_lines_select by done. eexists; split; [done|].
    split; [by apply select_rows_parallel|].
    intros E. by apply select_rows_well_formed.
  - rewrite reduce_to_select by done. eexists; split; [done|].
    split; [by apply keep_listed_parallel|].
    intros E. unfold keep_listed. apply select_rows_well_formed; [|done].
    by apply select_rows_parallel.
  - destruct (shuffle_well_formed np_shuffle Hperm seed d) as (d' & E & W1 & W2);
      [done|].
    eauto.
  - destruct Hop as [Ho Hq].
    pose proof (add_rows_parallel other d Hd Ho) as P.
    pose proof (add_rows_aligned other d Hp Hq) as A.
    rewrite add_rows_result in *. eexists; split; [done|]. split; [exact P|].
    exact A.
Qed.

Lemma reversing_shuffle_permutation seed n : reversing_shuffle seed n ≡ₚ seq 0 n.
Proof. apply reverse_Permutation. Qed.

(** C1: the filters never index the predictions, which [shuffle] does.
    On a well-formed dataset that carries predictions, [remove_drugs],
    [remove_cell_lines] and [reduce_to] return normally, leave the three
    arrays parallel and the predictions as they were; the predictions are
    as long as the arrays afterwards only if the filter removed no row. *)
Theorem filters_leave_predictions
    (np_shuffle : Z → nat → list nat) (op : operation) (d : DrugResponseDataset)
    (p : list pyfloat) :
  is_filter op = true → well_formed d → predictions d = Some p →
  ∃ d', apply_operation np_shuffle op d = (d', Ok tt)
    ∧ parallel d'
    ∧ predictions d' = Some p
    ∧ (predictions_aligned d' ↔ len d' = len d).
Proof.
  intros Hf [Hd Hp] Ep.
  assert (∀ d', predictions d' = Some p →
                predictions_aligned d' ↔ len d' = len d) as Ha.
  { intros d' E. unfold predictions_aligned, len in *. rewrite E. rewrite Ep in Hp.
    split; congruence. }
  destruct op as [x|x|cl dr|seed|other]; try discriminate Hf; simpl.
  - rewrite remove_drugs_select by done. eexists; split; [done|].
    split; [by apply select_rows_parallel|]. split; [done|]. by apply Ha.
  - rewrite remove_cell_lines_select by done. eexists; split; [done|].
    split; [by apply select_rows_parallel|]. split; [done|]. by apply Ha.
  - rewrite reduce_to_select by done. eexists; split; [done|].
    split; [by apply keep_listed_parallel|]. split; [done|]. by apply Ha.
Qed.

Lemma filters_leave_predictions_witness :
  is_filter (OpRemoveDrugs (Str "d1")) = true ∧ well_formed ds_predicted ∧
  predictions ds_predicted = Some [fl 5; fl 6] ∧
  ∃ d', apply_operation reversing_shuffle (OpRemoveDrugs (Str "d1")) ds_predicted
        = (d', Ok tt)
    ∧ parallel d'
    ∧ predictions d' = Some [fl 5; fl 6]
    ∧ (predictions_aligned d' ↔ len d' = len ds_predicted).
Proof.
  assert (well_formed ds_predicted) as W by (repeat split; reflexivity).
  split; [reflexivity|]. split; [exact W|]. split; [reflexivity|].
  exact (filters_leave_predictions reversing_shuffle (OpRemoveDrugs (Str "d1"))
           ds_predicted [fl 5; fl 6] eq_refl W eq_refl).
Defined.

(** After [remove_drugs] of one of two drugs the dataset has one row and
    two predictions. *)
Example remove_drugs_leaves_predictions :
  remove_drugs (Str "d1") ds_predicted
  = (mkDRD [fl 2] ["c2"] ["d2"] (Some [fl 5; fl 6]), Ok tt).
Proof. reflexivity. Qed.

Example remove_drugs_breaks_invariant :
  ¬ well_formed (remove_drugs (Str "d1") ds_predicted).1.
Proof. intros [_ A]. vm_compute in A. discriminate A. Qed.

(** [shuffle] indexes the predictions with the arrays: on the same dataset
    every row keeps its prediction. *)
Example shuffle_indexes_predictions :
  shuffle reversing_shuffle 42 ds_predicted
  = (mkDRD [fl 2; fl 1] ["c2"; "c1"] ["d2"; "d1"] (Some [fl 6; fl 5]), Ok tt).
Proof. reflexivity. Qed.

(** With predictions on [self] alone, [add_rows] leaves them shorter than
    the response. *)
Lemma length_invariant_broken_by_add_rows :
  ¬ (∀ op d, well_formed d → operand_well_formed op →
       well_formed (apply_operation reversing_shuffle op d).1).
Proof.
  intros H.
  destruct (H (OpAddRows ds_one) ds_predicted) as [_ A].
  - repeat split; reflexivity.
  - repeat split; reflexivity.
  - vm_compute in A. discriminate A.
Qed.

(** On the dataset that this [add_rows] leaves, [shuffle] raises
    [IndexError] when it comes to the predictions. *)
Example shuffle_after_one_sided_add_rows :
  (bind (add_rows ds_one) (λ _, shuffle reversing_shuffle 42) ds_predicted).2
  = Raise IndexError.
Proof. reflexivity. Qed.

(** ** randomize_features and split_dataset *)

(** The first statement of [randomize_features] reads the local variable
    [views] before anything is assigned to it: whatever the views and the
    mode, the call raises and the store is as it was. *)
Lemma randomize_features_raises np_permutation np_normal views_to_randomize mode st :
  randomize_features np_permutation np_normal views_to_randomize mode st
  = (st, Raise UnboundLocalError).
Proof. reflexivity. Qed.

(** C2: in permutation mode [randomize_features] raises
    [UnboundLocalError] and replaces no vector. *)
Theorem randomize_features_permutation_unbound
    np_permutation np_normal (views_to_randomize : str_or_list)
    (self : FeatureDataset) (draws : nat) :
  randomize_features np_permutation np_normal views_to_randomize "permutation"
                     (self, draws)
  = ((self, draws), Raise UnboundLocalError).
Proof. apply randomize_features_raises. Qed.

(** The branch that the call never reaches draws a permutation for
    every entity and pairs the views of the entity with it: with the
    same order drawn twice, both entities end with the vector of [c2]. *)
Example randomize_permutation_pairs_views_with_entities :
  randomize_permutation toy_permutation (Lst ["expr"]) (toy_cl, 0)
  = ((mkFD [("c1", [("expr", [fl 3; fl 4])]); ("c2", [("expr", [fl 3; fl 4])])]
           ["expr"] ["c1"; "c2"], 2), Ok tt).
Proof. reflexivity. Qed.

Section SplitProperties.

Context {fold : Type}.
Variable leave_pair_out_cv :
  nat → list pyfloat → list string → list string → bool → pyfloat → Z →
  result (list fold).
Variable leave_group_out_cv :
  string → nat → list pyfloat → list string → list string → bool →
  pyfloat → Z → result (list fold).

Lemma split_dataset_unknown_mode n mode sv ratio seed st :
  mode ∉ ["LPO"; "LCO"; "LDO"] →
  split_dataset fold leave_pair_out_cv leave_group_out_cv n mode sv ratio seed st
  = (st, Raise ValueError).
Proof.
  intros Hm. unfold split_dataset. monad_unfold.
  destruct (String.eqb_spec mode "LPO") as [->|_].
  { exfalso. apply Hm. apply elem_of_cons. by left. }
  unfold py_in. rewrite bool_decide_eq_false_2; [done|].
  intros Hin. apply Hm. apply elem_of_cons. by right.
Qed.

End SplitProperties.

(** C7: for a mode other than LPO, LCO and LDO [split_dataset] raises
    [ValueError], calls no splitter and stores no folds; for a mode other
    than the three randomization modes [randomize_features] raises
    [UnboundLocalError], not [ValueError]. *)
Theorem unknown_modes_raise {fold : Type}
    (leave_pair_out_cv :
       nat → list pyfloat → list string → list string → bool → pyfloat → Z →
       result (list fold))
    (leave_group_out_cv :
       string → nat → list pyfloat → list string → list string → bool →
       pyfloat → Z → result (list fold))
    np_permutation np_normal n (mode : string) sv ratio seed st views stf :
  (mode ∉ ["LPO"; "LCO"; "LDO"] →
   split_dataset fold leave_pair_out_cv leave_group_out_cv n mode sv ratio seed st
   = (st, Raise ValueError))
  ∧ (mode ∉ ["permutation"; "gaussian"; "zeroing"] →
     randomize_features np_permutation np_normal views mode stf
     = (stf, Raise UnboundLocalError)).
Proof.
  split; intros Hm.
  - by apply split_dataset_unknown_mode.
  - apply randomize_features_raises.
Qed.

Lemma unknown_modes_raise_witness :
  ("LOO" ∉ ["LPO"; "LCO"; "LDO"]) ∧
  ("LOO" ∉ ["permutation"; "gaussian"; "zeroing"]) ∧
  (split_dataset unit (λ _ _ _ _ _ _ _, Ok [()]) (λ _ _ _ _ _ _ _ _, Ok [()])
                 5 "LOO" true (fl 0) 42 (ds_three, None)
   = ((ds_three, None), Raise ValueError)) ∧
  (randomize_features toy_permutation toy_normal (Lst ["expr"]) "LOO" (toy_cl, 0)
   = ((toy_cl, 0), Raise UnboundLocalError)).
Proof.
  assert ("LOO" ∉ ["LPO"; "LCO"; "LDO"]) as H1 by compute_done.
  assert ("LOO" ∉ ["permutation"; "gaussian"; "zeroing"]) as H2 by compute_done.
  pose proof (unknown_modes_raise (fold := unit)
                (λ _ _ _ _ _ _ _, Ok [()]) (λ _ _ _ _ _ _ _ _, Ok [()])
                toy_permutation toy_normal 5 "LOO" true (fl 0) 42
                (ds_three, None) (Lst ["expr"]) (toy_cl, 0)) as [A B].
  repeat split; auto.
Defined.

(** ** train_and_predict *)

Section ExperimentProperties.

Context {MS : Type}.
Variable model : DRPModel (MS := MS).
Variable evaluate : DrugResponseDataset → list string → pydict pyfloat.

Lemma bind_ok {S A B} (m : M S A) (k : A → M S B) s s' a :
  m s = (s', Ok a) → bind m k s = k a s'.
Proof. intros E. unfold bind. by rewrite E. Qed.

Lemma bind_raise {S A B} (m : M S A) (k : A → M S B) s s' e :
  m s = (s', Raise e) → bind m k s = (s', Raise e).
Proof. intros E. unfold bind. by rewrite E. Qed.

Lemma reduced_at_parallel cl dr l h :
  heap_parallel h → heap_parallel (reduced_at cl dr l h).
Proof.
  intros Hh l'. unfold reduced_at.
  destruct (decide (l = l')) as [->|Hne].
  - rewrite lookup_total_insert_eq. apply keep_listed_parallel, Hh.
  - rewrite lookup_total_insert_ne by done. apply Hh.
Qed.

Lemma on_reduce_to cl dr l (w : world (MS := MS)) :
  parallel (heap w !!! l) →
  on l (reduce_to cl dr) w = (set_heap (reduced_at cl dr l (heap w)) w, Ok tt).
Proof. intros Hp. unfold on. by rewrite reduce_to_select. Qed.

Lemma features_used_get load hpams given F (w : world (MS := MS)) :
  features_used load hpams given = Some F →
  match given with
  | None => do path <- getitem hpams "feature_path" in ret (load path)
  | Some f => ret f
  end w = (w, Ok F).
Proof.
  unfold features_used, getitem. destruct given as [f|].
  - by intros [= ->].
  - destruct hpams as [h|]; [|done]. monad_unfold.
    destruct (dict_get "feature_path" h); simpl; [|done]. by intros [= ->].
Qed.

Lemma train_and_predict_effect hpams t p es clf drf F G (w : world (MS := MS)) :
  heap_parallel (heap w) →
  features_used (get_cell_line_features model) hpams clf = Some F →
  features_used (get_drug_features model) hpams drf = Some G →
  train_and_predict model hpams t p es clf drf w
  = (trained_world model hpams t p es F G w, Ok p).
Proof.
  intros Hh HF HG. unfold train_and_predict.
  rewrite (bind_ok _ _ _ _ _ (features_used_get _ _ _ _ w HF)).
  rewrite (bind_ok _ _ _ _ _ (features_used_get _ _ _ _ w HG)).
  rewrite (bind_ok _ _ _ _ _ (on_reduce_to _ _ t w (Hh t))).
  pose proof (reduced_at_parallel (identifiers F) (identifiers G) t _ Hh) as H1.
  set (w1 := set_heap _ w) in *.
  rewrite (bind_ok _ _ _ _ _ (on_reduce_to _ _ p w1 (H1 p))).
  pose proof (reduced_at_parallel (identifiers F) (identifiers G) p _ H1) as H2.
  set (w2 := set_heap _ w1) in *.
  destruct es as [e|].
  - rewrite (bind_ok _ _ _ _ _ (on_reduce_to _ _ e w2 (H2 e))). reflexivity.
  - reflexivity.
Qed.

End ExperimentProperties.

(** ** The tuner *)

Lemma Qcltb_lt a b : Qcltb a b = true ↔ (a < b)%Qc.
Proof.
  unfold Qcltb. rewrite Qclt_alt. destruct (a ?= b)%Qc; split; congruence.
Qed.

Lemma float_ltb_irrefl x : float_ltb x x = false.
Proof.
  destruct x as [a| | |]; simpl; try done.
  destruct (Qcltb a a) eqn:E; [|done].
  apply Qcltb_lt in E. by apply Qclt_not_eq in E.
Qed.

Lemma float_ltb_trans x y z :
  float_ltb x y = true → float_ltb y z = true → float_ltb x z = true.
Proof.
  destruct x as [a| | |], y as [b| | |], z as [c| | |]; simpl; try done.
  rewrite !Qcltb_lt. apply Qclt_trans.
Qed.

(** [x] is below [b] and [h] is not: then [x] is below [h], unless [h]
    is NaN. *)
Lemma float_ltb_below x b h :
  float_ltb x b = true → float_ltb h b = false →
  float_ltb x h = true ∨ h = NaN.
Proof.
  destruct x as [a| | |], b as [c| | |], h as [d| | |]; simpl; try done;
    try (by left); try (by right).
  intros Hac%Qcltb_lt Hdc. left. apply Qcltb_lt.
  eapply Qclt_le_trans; [exact Hac|]. apply Qcnot_lt_le.
  intros Hc%Qcltb_lt. congruence.
Qed.

Lemma selected_step score pre best x :
  selected score pre best → selected score (pre ++ [x]) (better score best x).
Proof.
  destruct best as [b [h|]]; unfold selected, better; simpl.
  - intros (-> & Hinf & i & Hi & Hle & Hlt).
    destruct (float_ltb (score x) (score h)) eqn:E; simpl.
    + split; [done|]. split; [by eapply float_ltb_trans|].
      exists (length pre). split; [|split].
      * by rewrite lookup_app_r, Nat.sub_diag.
      * intros h' [Hin| ->%list_elem_of_singleton]%elem_of_app.
        -- destruct (float_ltb (score h') (score x)) eqn:E'; [|done].
           rewrite <- (Hle h' Hin). symmetry. by eapply float_ltb_trans.
        -- apply float_ltb_irrefl.
      * intros j h' Hj Hl. rewrite lookup_app_l in Hl by done.
        apply (float_ltb_below _ (score h)); [done|].
        apply Hle. by eapply list_elem_of_lookup_2.
    + split; [done|]. split; [done|]. exists i. split; [|split].
      * rewrite lookup_app_l; [done|]. by eapply lookup_lt_Some.
      * intros h' [Hin| ->%list_elem_of_singleton]%elem_of_app; auto.
      * intros j h' Hj Hl. apply (Hlt j h' Hj).
        rewrite lookup_app_l in Hl; [done|]. apply lookup_lt_Some in Hi. lia.
  - intros (-> & Hall).
    destruct (float_ltb (score x) PInf) eqn:E; simpl.
    + split; [done|]. split; [done|]. exists (length pre). split; [|split].
      * by rewrite lookup_app_r, Nat.sub_diag.
      * intros h' [Hin| ->%list_elem_of_singleton]%elem_of_app.
        -- destruct (float_ltb (score h') (score x)) eqn:E'; [|done].
           rewrite <- (Hall h' Hin). symmetry. by eapply float_ltb_trans.
        -- apply float_ltb_irrefl.
      * intros j h' Hj Hl. rewrite lookup_app_l in Hl by done.
        apply (float_ltb_below _ PInf); [done|].
        apply Hall. by eapply list_elem_of_lookup_2.
    + split; [done|].
      intros h' [Hin| ->%list_elem_of_singleton]%elem_of_app; auto.
Qed.

Lemma selected_fold score l pre best :
  selected score pre best →
  selected score (pre ++ l) (foldl (better score) best l).
Proof.
  revert pre best. induction l as [|x l IH]; intros pre best Hs; simpl.
  - by rewrite app_nil_r.
  - replace (pre ++ x :: l) with ((pre ++ [x]) ++ l) by by rewrite <- app_assoc.
    by apply IH, selected_step.
Qed.

Lemma select_best_selected score l : selected score l (select_best score l).
Proof.
  apply (selected_fold score l [] (PInf, None)). split; [done|].
  intros h Hh. by apply elem_of_nil in Hh.
Qed.

Section Tuner.

Context {MS : Type}.
Variable model : DRPModel (MS := MS).
Variable evaluate : DrugResponseDataset → list string → pydict pyfloat.
Variables (t v : loc) (es : option loc).
Variable Inv : world (MS := MS) → Prop.
Variable score : hpam → pyfloat.

Lemma hpam_tune_loop l best w :
  deterministic_objective model evaluate t v es Inv score l → Inv w →
  ∃ w', foldM (hpam_tune_step model evaluate t v es) l best w
        = (w', Ok (foldl (better score) best l)) ∧ Inv w'.
Proof.
  revert best w. induction l as [|h l IH]; intros best w Hdet Hw.
  - by exists w.
  - destruct (Hdet h w) as (w1 & scores & E & Es & Hw1); [by left|done|].
    assert (hpam_tune_step model evaluate t v es best h w
            = (w1, Ok (better score best h))) as Estep.
    { unfold hpam_tune_step. destruct best as [b bh].
      rewrite (bind_ok _ _ _ _ _ E). rewrite Es. unfold better. simpl.
      monad_unfold. by destruct (float_ltb (score h) b). }
    simpl. rewrite (bind_ok _ _ _ _ _ Estep). apply IH; [|done].
    intros h' w' Hin. apply Hdet. by right.
Qed.

Lemma hpam_tune_selects l w :
  deterministic_objective model evaluate t v es Inv score l → Inv w →
  ∃ w', hpam_tune model evaluate t v l es w = (w', Ok (select_best score l).2)
        ∧ Inv w'.
Proof.
  intros Hdet Hw.
  destruct (hpam_tune_loop l (PInf, None) w Hdet Hw) as (w' & E & Hw').
  exists w'. split; [|done]. unfold hpam_tune. by rewrite (bind_ok _ _ _ _ _ E).
Qed.

End Tuner.

(** C8, as the code has it: for a deterministic objective, when some
    configuration has an rmse below [+inf] the sequential tuner returns a
    configuration of the list than which none has a lower rmse, and
    before which every configuration has a higher rmse or NaN (the first
    seen wins ties); when no rmse is below [+inf] it returns [None]. *)
Theorem hpam_tune_first_minimum {MS} (model : DRPModel (MS := MS)) evaluate
    (t v : loc) (es : option loc) (Inv : world → Prop) (score : hpam → pyfloat)
    (hpam_set : list hpam) (w : world) :
  deterministic_objective model evaluate t v es Inv score hpam_set → Inv w →
  ∃ w' r, hpam_tune model evaluate t v hpam_set es w = (w', Ok r)
    ∧ match r with
      | Some h => float_ltb (score h) PInf = true
                  ∧ ∃ i, first_minimum score hpam_set i h
      | None => ∀ h, h ∈ hpam_set → float_ltb (score h) PInf = false
      end.
Proof.
  intros Hdet Hw.
  destruct (hpam_tune_selects model evaluate t v es Inv _ hpam_set w Hdet Hw)
    as (w' & E & _).
  exists w', (select_best score hpam_set).2. split; [done|].
  pose proof (select_best_selected score hpam_set) as Hs. unfold selected in Hs.
  destruct (select_best score hpam_set).2 as [h|]; tauto.
Qed.

Lemma toy_evaluation (w : world (MS := toy_state)) (alpha : string) :
  toy_reachable w → alpha ∈ ["aa"; "b"; "c"] →
  train_and_evaluate toy_model toy_evaluate (Some (cfg alpha)) 0 1 None "rmse" w
  = (toy_after alpha, Ok [("rmse", Fin (toy_score (cfg alpha)))]).
Proof.
  unfold toy_reachable. intros Hw Ha.
  repeat (apply elem_of_cons in Hw as [->|Hw]);
    [| | | |by apply elem_of_nil in Hw];
    (repeat (apply elem_of_cons in Ha as [->|Ha]);
       [| | |by apply elem_of_nil in Ha]);
    vm_compute; reflexivity.
Qed.

Lemma toy_objective_deterministic :
  deterministic_objective toy_model toy_evaluate 0 1 None toy_reachable
                          (λ h, Fin (toy_score h)) toy_grid.
Proof.
  intros h w Hh Hw. unfold toy_grid in Hh.
  assert (∃ alpha k, h = cfg alpha ∧ alpha ∈ ["aa"; "b"; "c"]
                     ∧ [toy_world; toy_after "aa"; toy_after "b"; toy_after "c"]
                         !! k = Some (toy_after alpha))
    as (alpha & k & -> & Ha & Hk).
  { repeat (apply elem_of_cons in Hh as [->|Hh]);
      [| | |by apply elem_of_nil in Hh].
    - exists "aa", 1. split; [done|]. split; [by left|done].
    - exists "b", 2. split; [done|]. split; [by right; left|done].
    - exists "c", 3. split; [done|]. split; [by right; right; left|done]. }
  exists (toy_after alpha), [("rmse", Fin (toy_score (cfg alpha)))].
  split; [by apply toy_evaluation|]. split.
  - reflexivity.
  - unfold toy_reachable. by eapply list_elem_of_lookup_2.
Qed.

Lemma hpam_tune_first_minimum_witness :
  toy_reachable toy_world ∧
  ∃ w' r, hpam_tune toy_model toy_evaluate 0 1 toy_grid None toy_world = (w', Ok r)
    ∧ match r with
      | Some h => float_ltb (Fin (toy_score h)) PInf = true
                  ∧ ∃ i, first_minimum (λ h, Fin (toy_score h)) toy_grid i h
      | None => ∀ h, h ∈ toy_grid → float_ltb (Fin (toy_score h)) PInf = false
      end.
Proof.
  assert (toy_reachable toy_world) as Hw by (by left).
  split; [exact Hw|].
  exact (hpam_tune_first_minimum toy_model toy_evaluate 0 1 None toy_reachable
           (λ h, Fin (toy_score h)) toy_grid toy_world
           toy_objective_deterministic Hw).
Defined.

(** On [toy_grid] the tuner returns the second configuration, the first
    of the two that tie. *)
Example hpam_tune_toy_grid :
  (hpam_tune toy_model toy_evaluate 0 1 toy_grid None toy_world).2
  = Ok (Some (cfg "b")).
Proof. vm_compute. reflexivity. Qed.

(** C8, as stated, fails: when the rmse of every configuration is
    infinite, no configuration is below the initial [best_rmse] and the
    tuner returns [None]. *)
Lemma hpam_tune_infinite_rmse_selects_nothing :
  ¬ (∀ (evaluate : DrugResponseDataset → list string → pydict pyfloat)
       (hpam_set : list hpam),
       hpam_set ≠ [] →
       ∃ w' h, hpam_tune toy_model evaluate 0 1 hpam_set None toy_world
               = (w', Ok (Some h))).
Proof.
  intros H. destruct (H overflowing_evaluate [cfg "aa"; cfg "b"]) as (w' & h & E);
    [done|].
  vm_compute in E. discriminate E.
Qed.

(** ** The datasets of an evaluation *)

Lemma heap_parallel_empty : heap_parallel ∅.
Proof. intros l. rewrite lookup_total_empty. by split. Qed.

Lemma heap_parallel_insert l d h :
  parallel d → heap_parallel h → heap_parallel (<[l := d]> h).
Proof.
  intros Hd Hh l'. destruct (decide (l = l')) as [->|Hne].
  - by rewrite lookup_total_insert_eq.
  - by rewrite lookup_total_insert_ne.
Qed.

Lemma toy_world_parallel : heap_parallel (heap toy_world).
Proof.
  repeat apply heap_parallel_insert;
    first [apply heap_parallel_empty | split; reflexivity].
Qed.

Ltac lookup_heap :=
  repeat first [ rewrite lookup_total_insert_eq
               | rewrite lookup_total_insert_ne by congruence ].

Lemma set_predictions_parallel p d : parallel d → parallel (set_predictions p d).
Proof. by intros [H1 H2]. Qed.

Lemma keep_listed_set_predictions cl dr p d :
  keep_listed cl dr (set_predictions p d) = set_predictions p (keep_listed cl dr d).
Proof. reflexivity. Qed.

Lemma trained_world_lookup {MS} (model : DRPModel (MS := MS)) hpams
    (t v : loc) (es : option loc) (F G : FeatureDataset) (w : world) :
  heap_parallel (heap w) → t ≠ v → es ≠ Some t → es ≠ Some v →
  let tw := trained_world model hpams t v es F G w in
  let k := keep_listed (identifiers F) (identifiers G) in
  heap_parallel (heap tw)
  ∧ heap tw !!! t = k (heap w !!! t)
  ∧ (∃ p, heap tw !!! v = set_predictions (Some p) (k (heap w !!! v)))
  ∧ (∀ e, es = Some e → heap tw !!! e = k (heap w !!! e)).
Proof.
  intros Hh Htv Het Hev tw k. split.
  - unfold tw, trained_world. cbn [heap]. apply heap_parallel_insert.
    + apply set_predictions_parallel.
      destruct es; repeat apply reduced_at_parallel; done.
    + destruct es; repeat apply reduced_at_parallel; done.
  - unfold tw, trained_world, reduced_at. cbn [heap].
    destruct es as [e|]; cbn [fmap option_fmap option_map].
    + assert (e ≠ t) by congruence. assert (e ≠ v) by congruence.
      split; [by lookup_heap|]. split; [eexists; by lookup_heap|].
      intros e' [= <-]. by lookup_heap.
    + split; [by lookup_heap|]. split; [eexists; by lookup_heap|].
      by intros e' [=].
Qed.

Lemma trained_world_frame {MS} (model : DRPModel (MS := MS)) hpams
    (t v : loc) (es : option loc) (F G : FeatureDataset) (w : world) (l : loc) :
  l ≠ t → l ≠ v → es ≠ Some l →
  heap (trained_world model hpams t v es F G w) !! l = heap w !! l.
Proof.
  intros Hlt Hlv Hle. unfold trained_world, reduced_at. cbn [heap].
  destruct es as [e|].
  - assert (e ≠ l) by congruence. by rewrite !lookup_insert_ne.
  - by rewrite !lookup_insert_ne.
Qed.

(** The predictions that a training run leaves on the prediction dataset
    are those of the model as just trained, for the rows that the dataset
    has then. *)
Lemma trained_world_predictions {MS} (model : DRPModel (MS := MS)) hpams
    (t v : loc) (es : option loc) (F G : FeatureDataset) (w : world) :
  let tw := trained_world model hpams t v es F G w in
  predictions (heap tw !!! v)
  = Some (predict model (cell_line_ids (heap tw !!! v)) (drug_ids (heap tw !!! v))
                  F G (model_state tw)).
Proof.
  intros tw. unfold tw, trained_world. cbn [heap model_state].
  by rewrite lookup_total_insert_eq.
Qed.

Lemma train_and_evaluate_trained {MS} (model : DRPModel (MS := MS)) evaluate
    (h : hpam) (path : string) (t v : loc) (es : option loc) (w : world) :
  heap_parallel (heap w) → dict_get "feature_path" h = Some path →
  let tw := trained_world model (Some h) t v es (get_cell_line_features model path)
                          (get_drug_features model path) w in
  train_and_evaluate model evaluate (Some h) t v es "rmse" w
  = (tw, Ok (evaluate (heap tw !!! v) ["rmse"])).
Proof.
  intros Hh Hpath tw. unfold train_and_evaluate.
  by rewrite (bind_ok _ _ _ _ _
                (train_and_predict_effect model (Some h) t v es None None
                   (get_cell_line_features model path) (get_drug_features model path)
                   w Hh ltac:(by simpl; rewrite Hpath) ltac:(by simpl; rewrite Hpath))).
Qed.

Lemma reduced_for_path {MS} (model : DRPModel (MS := MS)) d h path :
  dict_get "feature_path" h = Some path →
  reduced_for model d h
  = keep_listed (identifiers (get_cell_line_features model path))
                (identifiers (get_drug_features model path)) d.
Proof. intros E. unfold reduced_for. by rewrite E. Qed.

Lemma reduced_for_set_predictions {MS} (model : DRPModel (MS := MS)) q d h :
  reduced_for model (set_predictions q d) h
  = set_predictions q (reduced_for model d h).
Proof. unfold reduced_for. by destruct (dict_get "feature_path" h). Qed.

Lemma foldl_reduced_for_set_predictions {MS} (model : DRPModel (MS := MS)) q d l :
  foldl (reduced_for model) (set_predictions q d) l
  = set_predictions q (foldl (reduced_for model) d l).
Proof.
  revert d. induction l as [|h l IH]; intros d; [done|].
  simpl. by rewrite reduced_for_set_predictions, IH.
Qed.

(** One evaluation of the tuner's loop, on the datasets behind [t], [v]
    and [es]. *)
Lemma train_and_evaluate_in_place {MS} (model : DRPModel (MS := MS)) evaluate
    (h : hpam) (path : string) (t v : loc) (es : option loc) (w : world) :
  heap_parallel (heap w) → dict_get "feature_path" h = Some path →
  t ≠ v → es ≠ Some t → es ≠ Some v →
  ∃ w',
    train_and_evaluate model evaluate (Some h) t v es "rmse" w
    = (w', Ok (evaluate (heap w' !!! v) ["rmse"]))
    ∧ heap_parallel (heap w')
    ∧ heap w' !!! t = reduced_for model (heap w !!! t) h
    ∧ (∃ p, heap w' !!! v
            = set_predictions (Some p) (reduced_for model (heap w !!! v) h))
    ∧ predictions (heap w' !!! v)
      = Some (predict model (cell_line_ids (heap w' !!! v)) (drug_ids (heap w' !!! v))
                (get_cell_line_features model path) (get_drug_features model path)
                (model_state w'))
    ∧ (∀ e, es = Some e → heap w' !!! e = reduced_for model (heap w !!! e) h)
    ∧ (∀ l, l ≠ t → l ≠ v → es ≠ Some l → heap w' !! l = heap w !! l).
Proof.
  intros Hh Hpath Htv Het Hev.
  set (F := get_cell_line_features model path).
  set (G := get_drug_features model path).
  exists (trained_world model (Some h) t v es F G w).
  split; [by apply train_and_evaluate_trained|].
  destruct (trained_world_lookup model (Some h) t v es F G w Hh Htv Het Hev)
    as (Hh' & Ht & Hv & He).
  rewrite !(reduced_for_path model _ h path Hpath).
  split; [done|]. split; [done|]. split; [done|].
  split; [apply trained_world_predictions|].
  split.
  - intros e Ee. rewrite (reduced_for_path model _ h path Hpath). by apply He.
  - intros l. apply trained_world_frame.
Qed.

(** The loop of [hpam_tune] over the configurations of [l], when every
    one of them names a feature path and the evaluation always reports an
    rmse. *)
Lemma hpam_tune_loop_in_place {MS} (model : DRPModel (MS := MS)) evaluate
    (t v : loc) (es : option loc) (l : list hpam) :
  t ≠ v → es ≠ Some t → es ≠ Some v →
  (∀ d, is_Some (dict_get "rmse" (evaluate d ["rmse"]))) →
  ∀ best w,
    heap_parallel (heap w) →
    (∀ h, h ∈ l → is_Some (dict_get "feature_path" h)) →
    ∃ w' best',
      foldM (hpam_tune_step model evaluate t v es) l best w = (w', Ok best')
      ∧ heap w' !!! t = foldl (reduced_for model) (heap w !!! t) l
      ∧ (∀ e, es = Some e →
              heap w' !!! e = foldl (reduced_for model) (heap w !!! e) l)
      ∧ (∃ q, heap w' !!! v
              = set_predictions q (foldl (reduced_for model) (heap w !!! v) l))
      ∧ (∀ h path, last l = Some h → dict_get "feature_path" h = Some path →
           predictions (heap w' !!! v)
           = Some (predict model (cell_line_ids (heap w' !!! v))
                     (drug_ids (heap w' !!! v))
                     (get_cell_line_features model path)
                     (get_drug_features model path) (model_state w')))
      ∧ (l = [] → w' = w)
      ∧ (∀ r, r ≠ t → r ≠ v → es ≠ Some r → heap w' !! r = heap w !! r).
Proof.
  intros Htv Het Hev Hrmse. induction l as [|h l IH]; intros best w Hh Hl.
  - exists w, best. split; [done|]. split; [done|]. split; [done|].
    split; [exists (predictions (heap w !!! v)); by destruct (heap w !!! v)|].
    split; [by intros h path [=]|]. done.
  - destruct (Hl h) as [path Hpath]; [by left|].
    destruct (train_and_evaluate_in_place model evaluate h path t v es w
                Hh Hpath Htv Het Hev)
      as (w1 & E & Hh1 & Ht1 & (p1 & Hv1) & Hp1 & He1 & Hf1).
    destruct (Hrmse (heap w1 !!! v)) as [rmse Ermse].
    assert (∃ best1, hpam_tune_step model evaluate t v es best h w
                     = (w1, Ok best1)) as [best1 Estep].
    { unfold hpam_tune_step. destruct best as [b bh].
      rewrite (bind_ok _ _ _ _ _ E), Ermse. monad_unfold.
      destruct (float_ltb rmse b); eauto. }
    cbn [foldM]. rewrite (bind_ok _ _ _ _ _ Estep).
    destruct (IH best1 w1 Hh1) as (w' & best' & Efold & Ht & He & (q & Hv) & Hp & Hnil & Hf).
    { intros h' Hin. apply Hl. by right. }
    exists w', best'. split; [done|]. cbn [foldl].
    split; [by rewrite Ht, Ht1|].
    split; [intros e Ee; by rewrite (He e Ee), (He1 e Ee)|].
    split.
    { rewrite Hv, Hv1, foldl_reduced_for_set_predictions.
      destruct l as [|h2 l].
      - eexists. reflexivity.
      - exists q. reflexivity. }
    split.
    { destruct l as [|h2 l].
      - intros h' path' [= <-] Hpath'. rewrite (Hnil eq_refl).
        rewrite Hpath' in Hpath. injection Hpath as <-. exact Hp1.
      - intros h' path' Hlast. apply Hp. exact Hlast. }
    split; [done|].
    intros r Hrt Hrv Hre. by rewrite Hf, Hf1.
Qed.

(** C4, as the code has it: an evaluation works on the datasets it is
    given, not on copies. One evaluation reduces the train, validation and
    early-stopping datasets in place to the rows whose cell line and drug
    have features, and overwrites the predictions of the validation
    dataset; the datasets behind other references stay as they are. So
    [hpam_tune], over configurations that name a feature path and with an
    evaluation that reports an rmse, returns normally and leaves the
    train, validation and early-stopping datasets of the caller reduced by
    every configuration in turn, the validation dataset with the
    predictions of the model trained last; on an empty list it changes
    nothing. *)
Theorem evaluation_works_in_place {MS} (model : DRPModel (MS := MS)) evaluate
    (t v : loc) (es : option loc) :
  t ≠ v → es ≠ Some t → es ≠ Some v →
  (∀ (h : hpam) (path : string) (w : world),
     heap_parallel (heap w) → dict_get "feature_path" h = Some path →
     let cl := identifiers (get_cell_line_features model path) in
     let dr := identifiers (get_drug_features model path) in
     ∃ w' scores,
       train_and_evaluate model evaluate (Some h) t v es "rmse" w = (w', Ok scores)
       ∧ heap w' !!! t = keep_listed cl dr (heap w !!! t)
       ∧ (∃ p, heap w' !!! v
               = set_predictions (Some p) (keep_listed cl dr (heap w !!! v)))
       ∧ (∀ e, es = Some e → heap w' !!! e = keep_listed cl dr (heap w !!! e))
       ∧ (∀ l, l ≠ t → l ≠ v → es ≠ Some l → heap w' !! l = heap w !! l))
  ∧ (∀ (hpam_set : list hpam) (w : world),
       heap_parallel (heap w) →
       (∀ h, h ∈ hpam_set → is_Some (dict_get "feature_path" h)) →
       (∀ d, is_Some (dict_get "rmse" (evaluate d ["rmse"]))) →
       ∃ w' best,
         hpam_tune model evaluate t v hpam_set es w = (w', Ok best)
         ∧ heap w' !!! t = foldl (reduced_for model) (heap w !!! t) hpam_set
         ∧ (∀ e, es = Some e →
                 heap w' !!! e = foldl (reduced_for model) (heap w !!! e) hpam_set)
         ∧ (∀ h path, last hpam_set = Some h →
                      dict_get "feature_path" h = Some path →
              let V := foldl (reduced_for model) (heap w !!! v) hpam_set in
              heap w' !!! v
              = set_predictions
                  (Some (predict model (cell_line_ids V) (drug_ids V)
                           (get_cell_line_features model path)
                           (get_drug_features model path) (model_state w'))) V)
         ∧ (hpam_set = [] → w' = w)
         ∧ (∀ l, l ≠ t → l ≠ v → es ≠ Some l → heap w' !! l = heap w !! l)).
Proof.
  intros Htv Het Hev. split.
  - intros h path w Hh Hpath cl dr.
    destruct (train_and_evaluate_in_place model evaluate h path t v es w
                Hh Hpath Htv Het Hev)
      as (w' & E & _ & Ht & Hv & _ & He & Hf).
    rewrite !(reduced_for_path model _ h path Hpath) in *.
    exists w', (evaluate (heap w' !!! v) ["rmse"]). repeat split; try done.
    intros e Ee. rewrite <- (reduced_for_path model _ h path Hpath). by apply He.
  - intros hpam_set w Hh Hl Hrmse.
    destruct (hpam_tune_loop_in_place model evaluate t v es hpam_set Htv Het Hev
                Hrmse (PInf, None) w Hh Hl)
      as (w' & best & E & Ht & He & (q & Hv) & Hp & Hnil & Hf).
    exists w', best.2. unfold hpam_tune. rewrite (bind_ok _ _ _ _ _ E).
    split; [done|]. split; [done|]. split; [done|].
    split; [|done].
    intros h path Hlast Hpath. specialize (Hp h path Hlast Hpath).
    rewrite Hv in Hp |- *. cbn [predictions cell_line_ids drug_ids set_predictions] in Hp.
    by rewrite Hp.
Qed.

Lemma toy_grid_feature_paths h :
  h ∈ toy_grid → is_Some (dict_get "feature_path" h).
Proof.
  unfold toy_grid. intros Hin.
  repeat (apply elem_of_cons in Hin as [->|Hin]); try (by eexists).
  by apply elem_of_nil in Hin.
Qed.

Lemma evaluation_works_in_place_witness :
  (∃ w' scores,
     train_and_evaluate toy_model toy_evaluate (Some (cfg "aa")) 0 1 None "rmse"
                        toy_world = (w', Ok scores)
     ∧ heap w' !!! 0 = keep_listed ["c1"; "c2"] ["d1"; "d2"] (heap toy_world !!! 0)
     ∧ (∃ p, heap w' !!! 1
             = set_predictions (Some p)
                 (keep_listed ["c1"; "c2"] ["d1"; "d2"] (heap toy_world !!! 1)))
     ∧ (∀ e, None = Some e →
             heap w' !!! e
             = keep_listed ["c1"; "c2"] ["d1"; "d2"] (heap toy_world !!! e))
     ∧ (∀ l, l ≠ 0 → l ≠ 1 → None ≠ Some l → heap w' !! l = heap toy_world !! l))
  ∧ (∃ w' best,
       hpam_tune toy_model toy_evaluate 0 1 toy_grid None toy_world = (w', Ok best)
       ∧ heap w' !!! 0 = foldl (reduced_for toy_model) (heap toy_world !!! 0) toy_grid
       ∧ (∀ e, None = Some e →
               heap w' !!! e
               = foldl (reduced_for toy_model) (heap toy_world !!! e) toy_grid)
       ∧ (∀ h path, last toy_grid = Some h →
                    dict_get "feature_path" h = Some path →
            let V := foldl (reduced_for toy_model) (heap toy_world !!! 1) toy_grid in
            heap w' !!! 1
            = set_predictions
                (Some (predict toy_model (cell_line_ids V) (drug_ids V)
                         (get_cell_line_features toy_model path)
                         (get_drug_features toy_model path) (model_state w'))) V)
       ∧ (toy_grid = [] → w' = toy_world)
       ∧ (∀ l, l ≠ 0 → l ≠ 1 → None ≠ Some l → heap w' !! l = heap toy_world !! l)).
Proof.
  pose proof (evaluation_works_in_place toy_model toy_evaluate 0 1 None
                ltac:(discriminate) ltac:(discriminate) ltac:(discriminate))
    as [H1 H2].
  split.
  - exact (H1 (cfg "aa") "features/" toy_world toy_world_parallel eq_refl).
  - exact (H2 toy_grid toy_world toy_world_parallel toy_grid_feature_paths
              (λ d, ex_intro _ _ eq_refl)).
Defined.

(** C4, as stated, fails: after [hpam_tune] over three configurations
    the train dataset of the caller has lost the row of the cell line
    without features, and the validation dataset has lost a row and
    carries predictions. *)
Lemma hpam_tune_mutates_datasets :
  ¬ (∀ hpam_set : list hpam,
       let w' := (hpam_tune toy_model toy_evaluate 0 1 hpam_set None toy_world).1 in
       heap w' !! 0 = heap toy_world !! 0 ∧ heap w' !! 1 = heap toy_world !! 1).
Proof.
  intros H. destruct (H toy_grid) as [_ E]. vm_compute in E. discriminate E.
Qed.

Example hpam_tune_leaves_validation :
  heap (hpam_tune toy_model toy_evaluate 0 1 toy_grid None toy_world).1 !! 1
  = Some (mkDRD [fl 4] ["c1"] ["d2"] (Some [fl 1])).
Proof. vm_compute. reflexivity. Qed.

(** ** The empty candidate list *)

Lemma bind_ext_r {S A B} (m : M S A) (k1 k2 : A → M S B) s :
  (∀ a s', k1 a s' = k2 a s') → bind m k1 s = bind m k2 s.
Proof. intros H. unfold bind. destruct (m s) as [s' [a|e]]; auto. Qed.

Lemma train_and_predict_no_hpams {MS} (model : DRPModel (MS := MS))
    t p es (w : world) :
  train_and_predict model None t p es None None w = (w, Raise TypeError).
Proof. reflexivity. Qed.

(** C10: on an empty candidate list [hpam_tune] returns [None] without
    raising and leaves the world as it is; the fold of
    [drug_response_experiment] then merges the validation set into the
    train set, reshuffles, and calls the final [train_and_predict] with
    [None] for the hyperparameters. *)
Theorem empty_hpam_set_selects_none {MS} np_shuffle (model : DRPModel (MS := MS))
    evaluate copy randomize raytune test_mode views predictions_path
    randomization_test_path split_index (t v test : loc) (es : option loc)
    (w : world) :
  (∀ es' w', hpam_tune model evaluate t v [] es' w' = (w', Ok None))
  ∧ drug_response_experiment_split np_shuffle model evaluate copy randomize
      raytune false test_mode views predictions_path randomization_test_path
      [] split_index t v test es w
    = (run early_stopping_or_none model es in
       do other <- deref v in
       run on t (add_rows other) in
       run on t (shuffle np_shuffle 42) in
       do es' <- early_stopping_or_none model es in
       run train_and_predict model None t test es' None None in
       ret tt) w.
Proof.
  split; [reflexivity|]. unfold drug_response_experiment_split.
  unfold bind at 1. unfold bind at 1.
  destruct (early_stopping_or_none model es w) as [w0 [es0|e]] eqn:E0.
  - rewrite (bind_ok _ _ _ _ _ E0). simpl.
    do 4 (apply bind_ext_r; intros).
    unfold bind at 1. unfold bind at 2.
    by rewrite !train_and_predict_no_hpams.
  - by rewrite (bind_raise _ _ _ _ _ E0).
Qed.

(** The final training of such a fold fails on [hpams["feature_path"]]. *)
Example empty_hpam_set_fold :
  drug_response_experiment_split reversing_shuffle toy_model toy_evaluate
    value_copy (dataset_randomize_features toy_permutation toy_normal) no_raytune
    false "LPO" None "out/toy/predictions" None [] 0 0 1 2 None toy_world
  = (set_heap (<[0 := mkDRD [fl 5; fl 4; fl 3; fl 2; fl 1]
                        ["c9"; "c1"; "c3"; "c2"; "c1"]
                        ["d1"; "d2"; "d1"; "d2"; "d1"] None]> (heap toy_world))
              toy_world,
     Raise TypeError).
Proof. vm_compute. reflexivity. Qed.

(** ** The randomization tests *)

Lemma for_break_continue_app {S A} (pre l : list A) (body : A → M S control) s s1 :
  for_break pre body s = (s1, Ok Continue) →
  for_break (pre ++ l) body s = for_break l body s1.
Proof.
  revert s. induction pre as [|a pre IH]; intros s; simpl.
  - by intros [= ->].
  - unfold bind. destruct (body a s) as [s' [[]|e]]; try done. apply IH.
Qed.

Section RandomizationProperties.

Context {MS : Type}.
Variable model : DRPModel (MS := MS).
Variable copy : FeatureDataset → FeatureDataset.
Variable randomize : str_or_list → string → M (FeatureDataset * nat) unit.
Variables (hpam_set : option hpam) (t test : loc) (es : option loc).
Variables (split_index : nat) (test_mode : string).

Lemma randomization_view_missing test_name path view s (w : world (MS := MS)) cn dn :
  get_view_names (cl_store s) = Ok cn → view ∉ cn →
  get_view_names (drug_store s) = Ok dn → view ∉ dn →
  randomization_view model copy randomize hpam_set t test es split_index test_mode
                     test_name path view (s, w)
  = ((s, (emit (Warning (not_found_message view test_name)) w).1), Ok Break).
Proof.
  intros Hc Hcn Hd Hdn. unfold randomization_view. monad_unfold.
  rewrite Hc. unfold py_in. rewrite bool_decide_eq_false_2 by done.
  rewrite Hd. rewrite bool_decide_eq_false_2 by done. reflexivity.
Qed.

Lemma randomization_view_found_cl test_name path view s (w : world (MS := MS))
    names f' n' :
  heap_parallel (heap w) →
  get_view_names (cl_store s) = Ok names → view ∈ names →
  randomize (Str view) "gaussian" (cl_store s, rng w) = ((f', n'), Ok tt) →
  let tw := trained_world model hpam_set t test es (copy (cl_store s))
                          (copy (drug_store s)) (set_rng n' w) in
  randomization_view model copy randomize hpam_set t test es split_index test_mode
                     test_name path view (s, w)
  = ((mkStores f' (drug_store s),
      (emit (Saved (path_join path (split_file test_mode split_index))
                   (heap tw !!! test)) tw).1), Ok Continue).
Proof.
  intros Hh Hn Hin Hr tw. unfold randomization_view.
  unfold bind at 1, get at 1. unfold bind at 1. unfold lift at 1.
  cbn [fst snd]. rewrite Hn.
  unfold py_in. rewrite bool_decide_eq_true_2 by done.
  unfold bind at 1. unfold bind at 1. unfold on_cl_store at 1.
  cbn [fst snd]. rewrite Hr. cbn [ret].
  unfold bind at 1. unfold zoom at 1. cbn [fst snd].
  rewrite (train_and_predict_effect model hpam_set t test es _ _
             (copy (cl_store s)) (copy (drug_store s)) (set_rng n' w));
    [reflexivity|done..].
Qed.

Lemma randomization_view_found_drug test_name path view s (w : world (MS := MS))
    cn dn f' n' :
  heap_parallel (heap w) →
  get_view_names (cl_store s) = Ok cn → view ∉ cn →
  get_view_names (drug_store s) = Ok dn → view ∈ dn →
  randomize (Str view) "gaussian" (drug_store s, rng w) = ((f', n'), Ok tt) →
  let tw := trained_world model hpam_set t test es (copy (cl_store s))
                          (copy (drug_store s)) (set_rng n' w) in
  randomization_view model copy randomize hpam_set t test es split_index test_mode
                     test_name path view (s, w)
  = ((mkStores (cl_store s) f',
      (emit (Saved (path_join path (split_file test_mode split_index))
                   (heap tw !!! test)) tw).1), Ok Continue).
Proof.
  intros Hh Hc Hcn Hd Hdn Hr tw. unfold randomization_view.
  unfold bind at 1, get at 1. unfold bind at 1. unfold lift at 1.
  cbn [fst snd]. rewrite Hc.
  unfold py_in. rewrite bool_decide_eq_false_2 by done.
  unfold bind at 1. unfold bind at 1. unfold lift at 1. rewrite Hd.
  rewrite bool_decide_eq_true_2 by done.
  unfold bind at 1. unfold on_drug_store at 1.
  cbn [fst snd]. rewrite Hr. cbn [ret].
  unfold bind at 1. unfold zoom at 1. cbn [fst snd].
  rewrite (train_and_predict_effect model hpam_set t test es _ _
             (copy (cl_store s)) (copy (drug_store s)) (set_rng n' w));
    [reflexivity|done..].
Qed.

End RandomizationProperties.

(** C3: when the view belongs to the cell-line store, the iteration
    randomizes the canonical store itself, which stays perturbed
    afterwards, and retrains the model with the copies taken before the
    randomization, which are not perturbed. *)
Theorem randomization_view_perturbs_canonical {MS} (model : DRPModel (MS := MS))
    copy randomize hpam_set (t test : loc) (es : option loc) split_index test_mode
    test_name path view (s : stores) (w : world) names f' n' :
  heap_parallel (heap w) →
  get_view_names (cl_store s) = Ok names → view ∈ names →
  randomize (Str view) "gaussian" (cl_store s, rng w) = ((f', n'), Ok tt) →
  ∃ s' w' output output_earlystopping,
    randomization_view model copy randomize hpam_set t test es split_index
                       test_mode test_name path view (s, w)
    = ((s', w'), Ok Continue)
    ∧ cl_store s' = f'
    ∧ model_state w' = train model (copy (cl_store s)) (copy (drug_store s))
                             output hpam_set output_earlystopping (model_state w).
Proof.
  intros Hh Hn Hin Hr.
  eexists _, _, _, _. split.
  - by apply (randomization_view_found_cl model copy randomize hpam_set t test es
                split_index test_mode test_name path view s w names f' n').
  - split; reflexivity.
Qed.

Lemma randomization_view_perturbs_canonical_witness :
  heap_parallel (heap toy_world) ∧
  ∃ s' w' output output_earlystopping,
    toy_view "t1" "out/t1" "expr" (toy_stores, toy_world) = ((s', w'), Ok Continue)
    ∧ cl_store s' = toy_cl_perturbed
    ∧ model_state w' = train toy_model (value_copy toy_cl) (value_copy toy_drug)
                             output (Some (cfg "aa")) output_earlystopping None.
Proof.
  split; [exact toy_world_parallel|].
  refine (randomization_view_perturbs_canonical toy_model value_copy toy_randomize
            (Some (cfg "aa")) 0 2 None 0 "LPO" "t1" "out/t1" "expr" toy_stores
            toy_world ["expr"] toy_cl_perturbed 2 toy_world_parallel _ _ _).
  - reflexivity.
  - by left.
  - vm_compute. reflexivity.
Defined.

(** The canonical store after one iteration, and what the model was
    trained with. *)
Example toy_randomization_of_expr :
  let r := toy_view "t1" "out/t1" "expr" (toy_stores, toy_world) in
  cl_store r.1.1
  = mkFD [("c1", [("expr", [fl 9; fl 9])]); ("c2", [("expr", [fl 10; fl 10])])]
         ["expr"] ["c1"; "c2"]
  ∧ model_state r.1.2 = Some (toy_cl, toy_drug, Some (cfg "aa")).
Proof. vm_compute. split; reflexivity. Qed.

(** The second view of a test is trained with the cell-line store that
    the first view left perturbed. *)
Example toy_second_view_sees_perturbation :
  model_state (toy_group ("t1", ["expr"; "fingerprint"]) (toy_stores, toy_world)).1.2
  = Some (toy_cl_perturbed, toy_drug, Some (cfg "aa")).
Proof. vm_compute. reflexivity. Qed.

(** With [randomize_features] as [data_wrapper.py] has it, the
    iteration ends in [UnboundLocalError] before any retraining. *)
Example toy_randomization_with_data_wrapper :
  randomization_view toy_model value_copy
    (randomize_features toy_permutation toy_normal) (Some (cfg "aa")) 0 2 None
    0 "LPO" "t1" "out/t1" "expr" (toy_stores, toy_world)
  = ((toy_stores, toy_world), Raise UnboundLocalError).
Proof. vm_compute. reflexivity. Qed.

(** C6, as the code has it: when the loop over the views of a test
    reaches a view that is in neither store, it warns and leaves the
    loop; the views of that test that come after are not processed, the
    stores and the datasets stay as the earlier views left them, and the
    loop over the tests goes on with the next test. *)
Theorem missing_view_ends_test {MS} (model : DRPModel (MS := MS)) copy randomize
    hpam_set (t test : loc) (es : option loc) path_out split_index test_mode
    test_name (pre : list string) (view : string) (post : list string)
    (groups : pydict (list string)) (s s1 : stores) (w w1 : world) cn dn :
  for_break pre
    (randomization_view model copy randomize hpam_set t test es split_index
       test_mode test_name (path_join path_out test_name))
    (s, (emit (Makedirs (path_join path_out test_name)) w).1)
  = ((s1, w1), Ok Continue) →
  get_view_names (cl_store s1) = Ok cn → view ∉ cn →
  get_view_names (drug_store s1) = Ok dn → view ∉ dn →
  forM ((test_name, pre ++ view :: post) :: groups)
       (randomization_group model copy randomize hpam_set t test es path_out
          split_index test_mode) (s, w)
  = forM groups
         (randomization_group model copy randomize hpam_set t test es path_out
            split_index test_mode)
         (s1, (emit (Warning (not_found_message view test_name)) w1).1).
Proof.
  intros Hpre Hc Hcn Hd Hdn. unfold forM at 1. simpl.
  unfold bind at 1. unfold randomization_group at 1.
  unfold bind at 1. unfold zoom at 1. cbn [fst snd emit].
  unfold bind at 1.
  rewrite (for_break_continue_app _ _ _ _ _ Hpre). simpl.
  rewrite (bind_ok _ _ _ _ _
             (randomization_view_missing model copy randomize hpam_set t test es
                split_index test_mode test_name _ view s1 w1 cn dn Hc Hcn Hd Hdn)).
  reflexivity.
Qed.

Lemma missing_view_ends_test_witness :
  forM [("t1", ["expr"] ++ "missing" :: ["fingerprint"]); ("t2", ["fingerprint"])]
       toy_group (toy_stores, toy_world)
  = forM [("t2", ["fingerprint"])] toy_group
         (toy_after_expr.1,
          (emit (Warning (not_found_message "missing" "t1")) toy_after_expr.2).1).
Proof.
  refine (missing_view_ends_test toy_model value_copy toy_randomize
            (Some (cfg "aa")) 0 2 None "out" 0 "LPO" "t1" ["expr"] "missing"
            ["fingerprint"] [("t2", ["fingerprint"])] toy_stores toy_after_expr.1
            toy_world toy_after_expr.2 ["expr"] ["fingerprint"] _ _ _ _ _).
  - vm_compute. reflexivity.
  - vm_compute. reflexivity.
  - compute_done.
  - vm_compute. reflexivity.
  - compute_done.
Defined.

(** C6, as stated, fails: the view [expr] comes after a view that is in
    neither store; nothing is saved for it. *)
Lemma missing_view_skips_later_views :
  ¬ (∀ views : list string,
       "expr" ∈ views →
       ∃ d, Saved "out/t1/test_dataset_LPO_split_0.csv" d
            ∈ log (randomization_test toy_model value_copy toy_randomize
                     [("t1", views)] (Some (cfg "aa")) 0 2 None "out" 0 "LPO"
                     toy_world).1).
Proof.
  intros H. destruct (H ["missing"; "expr"]) as [d Hd].
  - apply elem_of_cons. right. by left.
  - vm_compute in Hd.
    repeat (apply elem_of_cons in Hd as [Hd|Hd]; [discriminate Hd|]).
    by apply elem_of_nil in Hd.
Qed.

(** The log of that run: the directory of the test and the warning. *)
Example missing_view_log :
  log (randomization_test toy_model value_copy toy_randomize
         [("t1", ["missing"; "expr"]); ("t2", ["fingerprint"])]
         (Some (cfg "aa")) 0 2 None "out" 0 "LPO" toy_world).1
  = [Makedirs "out/t1";
     Warning "View missing not found in features. Skipping randomization test t1 which includes this view.";
     Makedirs "out/t2";
     Saved "out/t2/test_dataset_LPO_split_0.csv"
           (mkDRD [fl 6] ["c2"] ["d1"] (Some [fl 2]))].
Proof. vm_compute. reflexivity. Qed.

(** * Further properties *)

(** ** The filters, row by row *)

Lemma mask_filter_zip {A B} (xs : list A) (ys : list B) (mask : list bool) :
  mask_filter (zip xs ys) mask = zip (mask_filter xs mask) (mask_filter ys mask).
Proof.
  revert ys mask. induction xs as [|x xs IH]; intros [|y ys] [|b mask];
    simpl; try done.
  - by rewrite zip_with_nil_r.
  - destruct b; simpl; by rewrite IH.
Qed.

Lemma mask_filter_filter {A} (p : A → bool) (xs : list A) :
  mask_filter xs (map p xs) = filter (λ x, p x = true) xs.
Proof.
  induction xs as [|x xs IH]; simpl; [done|].
  rewrite filter_cons. destruct (p x) eqn:E.
  - rewrite decide_True by done. by rewrite IH.
  - rewrite decide_False by congruence. done.
Qed.

Lemma rows_cell_line_ids d : parallel d → cell_line_ids d = (rows d).*1.*1.
Proof.
  intros [H1 H2]. unfold rows. rewrite fst_zip, fst_zip; [done|lia|].
  rewrite length_zip. lia.
Qed.

Lemma rows_drug_ids d : parallel d → drug_ids d = (rows d).*1.*2.
Proof.
  intros [H1 H2]. unfold rows. rewrite fst_zip, snd_zip; [done|lia|].
  rewrite length_zip. lia.
Qed.

Lemma rows_response d : parallel d → response d = (rows d).*2.
Proof.
  intros [H1 H2]. unfold rows. rewrite snd_zip; [done|].
  rewrite length_zip. lia.
Qed.

Lemma rows_select_rows mask d :
  rows (select_rows mask d) = mask_filter (rows d) mask.
Proof. unfold rows, select_rows. simpl. by rewrite !mask_filter_zip. Qed.

Lemma dataset_eq_rows d1 d2 :
  parallel d1 → parallel d2 → rows d1 = rows d2 →
  predictions d1 = predictions d2 → d1 = d2.
Proof.
  intros H1 H2 Hr Hp.
  pose proof (rows_cell_line_ids d1 H1) as C1.
  pose proof (rows_drug_ids d1 H1) as G1.
  pose proof (rows_response d1 H1) as R1.
  rewrite Hr, <- (rows_cell_line_ids d2 H2) in C1.
  rewrite Hr, <- (rows_drug_ids d2 H2) in G1.
  rewrite Hr, <- (rows_response d2 H2) in R1.
  destruct d1, d2; simpl in *; congruence.
Qed.

Lemma map_zip_fst {A B C} (f : A → C) (xs : list A) (ys : list B) :
  length xs = length ys → map f xs = map (λ p, f p.1) (zip xs ys).
Proof.
  revert ys. induction xs as [|x xs IH]; intros [|y ys] H; simpl in *; try done.
  f_equal. apply IH. lia.
Qed.

Lemma map_zip_snd {A B C} (f : B → C) (xs : list A) (ys : list B) :
  length xs = length ys → map f ys = map (λ p, f p.2) (zip xs ys).
Proof.
  revert ys. induction xs as [|x xs IH]; intros [|y ys] H; simpl in *; try done.
  f_equal. apply IH. lia.
Qed.

Lemma map_drug_ids {C} (f : string → C) d :
  parallel d → map f (drug_ids d) = map (λ r, f r.1.2) (rows d).
Proof.
  intros [H1 H2]. unfold rows.
  rewrite <- (map_zip_fst (λ p, f p.2)) by (rewrite length_zip; lia).
  rewrite <- (map_zip_snd f); [done|lia].
Qed.

Lemma map_cell_line_ids {C} (f : string → C) d :
  parallel d → map f (cell_line_ids d) = map (λ r, f r.1.1) (rows d).
Proof.
  intros [H1 H2]. unfold rows.
  rewrite <- (map_zip_fst (λ p, f p.1)) by (rewrite length_zip; lia).
  rewrite <- (map_zip_fst f); [done|lia].
Qed.

Lemma remove_drugs_rows x d :
  parallel d →
  rows (remove_drugs x d).1 = filter (λ r, r.1.2 ∉ listed x) (rows d).
Proof.
  intros Hd. rewrite remove_drugs_select by done. cbn [fst].
  rewrite rows_select_rows, map_drug_ids by done.
  rewrite (mask_filter_filter (λ r, negb (py_in (r.1.2) (listed x)))).
  apply list_filter_iff. intros r. unfold py_in.
  rewrite negb_true_iff, bool_decide_eq_false. done.
Qed.

Lemma remove_cell_lines_rows x d :
  parallel d →
  rows (remove_cell_lines x d).1 = filter (λ r, r.1.1 ∉ listed x) (rows d).
Proof.
  intros Hd. rewrite remove_cell_lines_select by done. cbn [fst].
  rewrite rows_select_rows, map_cell_line_ids by done.
  rewrite (mask_filter_filter (λ r, negb (py_in (r.1.1) (listed x)))).
  apply list_filter_iff. intros r. unfold py_in.
  rewrite negb_true_iff, bool_decide_eq_false. done.
Qed.

Lemma remove_drugs_ok x d :
  parallel d →
  remove_drugs x d = ((remove_drugs x d).1, Ok tt)
  ∧ parallel (remove_drugs x d).1
  ∧ predictions (remove_drugs x d).1 = predictions d.
Proof.
  intros Hd. rewrite remove_drugs_select by done.
  split; [done|]. split; [by apply select_rows_parallel|done].
Qed.

Lemma remove_cell_lines_ok x d :
  parallel d →
  remove_cell_lines x d = ((remove_cell_lines x d).1, Ok tt)
  ∧ parallel (remove_cell_lines x d).1
  ∧ predictions (remove_cell_lines x d).1 = predictions d.
Proof.
  intros Hd. rewrite remove_cell_lines_select by done.
  split; [done|]. split; [by apply select_rows_parallel|done].
Qed.

(** X1: on a dataset with parallel arrays [remove_drugs] and
    [remove_cell_lines] return normally and keep, in their order and
    whole, exactly the rows whose drug (cell line) is not in the list;
    the predictions are not touched. *)
Theorem filters_keep_whole_rows x d :
  parallel d →
  (∃ d', remove_drugs x d = (d', Ok tt)
         ∧ rows d' = filter (λ r, r.1.2 ∉ listed x) (rows d)
         ∧ predictions d' = predictions d)
  ∧ (∃ d', remove_cell_lines x d = (d', Ok tt)
           ∧ rows d' = filter (λ r, r.1.1 ∉ listed x) (rows d)
           ∧ predictions d' = predictions d).
Proof.
  intros Hd. split.
  - destruct (remove_drugs_ok x d Hd) as (E & _ & Hp).
    eexists. split; [exact E|]. split; [by apply remove_drugs_rows|done].
  - destruct (remove_cell_lines_ok x d Hd) as (E & _ & Hp).
    eexists. split; [exact E|]. split; [by apply remove_cell_lines_rows|done].
Qed.

Lemma filters_keep_whole_rows_witness :
  parallel ds_three ∧
  (∃ d', remove_drugs (Str "d1") ds_three = (d', Ok tt)
         ∧ rows d' = filter (λ r, r.1.2 ∉ listed (Str "d1")) (rows ds_three)
         ∧ predictions d' = predictions ds_three)
  ∧ (∃ d', remove_cell_lines (Str "d1") ds_three = (d', Ok tt)
           ∧ rows d' = filter (λ r, r.1.1 ∉ listed (Str "d1")) (rows ds_three)
           ∧ predictions d' = predictions ds_three).
Proof.
  assert (parallel ds_three) as H by (split; reflexivity).
  split; [exact H|]. exact (filters_keep_whole_rows (Str "d1") ds_three H).
Defined.

Lemma rows_keep_listed cl dr d :
  parallel d →
  rows (keep_listed cl dr d) = filter (λ r, r.1.1 ∈ cl ∧ r.1.2 ∈ dr) (rows d).
Proof.
  intros Hd. unfold keep_listed.
  set (d1 := select_rows (map (λ drug, py_in drug dr) (drug_ids d)) d).
  assert (parallel d1) as Hd1 by (by apply select_rows_parallel).
  rewrite rows_select_rows, map_cell_line_ids by done.
  rewrite (mask_filter_filter (λ r, py_in (r.1.1) cl)).
  unfold d1. rewrite rows_select_rows, map_drug_ids by done.
  rewrite (mask_filter_filter (λ r, py_in (r.1.2) dr)).
  rewrite list_filter_filter. apply list_filter_iff. intros r. unfold py_in.
  by rewrite !bool_decide_eq_true.
Qed.

(** X2: on a dataset with parallel arrays [reduce_to] keeps, in their
    order and whole, exactly the rows whose cell line and drug are both in
    the lists it is given. *)
Theorem reduce_to_keeps_listed_rows cl dr d :
  parallel d →
  ∃ d', reduce_to cl dr d = (d', Ok tt)
        ∧ rows d' = filter (λ r, r.1.1 ∈ cl ∧ r.1.2 ∈ dr) (rows d)
        ∧ predictions d' = predictions d.
Proof.
  intros Hd. rewrite reduce_to_select by done. eexists. split; [done|].
  split; [by apply rows_keep_listed|done].
Qed.

Lemma reduce_to_keeps_listed_rows_witness :
  parallel ds_three ∧
  ∃ d', reduce_to ["c1"; "c3"] ["d1"] ds_three = (d', Ok tt)
        ∧ rows d' = filter (λ r, r.1.1 ∈ ["c1"; "c3"] ∧ r.1.2 ∈ ["d1"])
                           (rows ds_three)
        ∧ predictions d' = predictions ds_three.
Proof.
  assert (parallel ds_three) as H by (split; reflexivity).
  split; [exact H|].
  exact (reduce_to_keeps_listed_rows ["c1"; "c3"] ["d1"] ds_three H).
Defined.

(** X3: on a dataset with parallel arrays the two filters commute:
    removing drugs and then cell lines leaves the dataset that removing
    the cell lines and then the drugs leaves. *)
Theorem filters_commute x y d :
  parallel d →
  bind (remove_drugs x) (λ _, remove_cell_lines y) d
  = bind (remove_cell_lines y) (λ _, remove_drugs x) d.
Proof.
  intros Hd.
  destruct (remove_drugs_ok x d Hd) as (E1 & P1 & Q1).
  destruct (remove_cell_lines_ok y d Hd) as (E2 & P2 & Q2).
  rewrite (bind_ok _ _ _ _ _ E1), (bind_ok _ _ _ _ _ E2).
  destruct (remove_cell_lines_ok y _ P1) as (E3 & P3 & Q3).
  destruct (remove_drugs_ok x _ P2) as (E4 & P4 & Q4).
  rewrite E3, E4. f_equal. apply dataset_eq_rows; try done; [|congruence].
  rewrite remove_cell_lines_rows, remove_drugs_rows by done.
  rewrite remove_drugs_rows, remove_cell_lines_rows by done.
  rewrite !list_filter_filter. apply list_filter_iff. intros r. tauto.
Qed.

Lemma filters_commute_witness :
  parallel ds_three ∧
  bind (remove_drugs (Str "d2")) (λ _, remove_cell_lines (Lst ["c3"])) ds_three
  = bind (remove_cell_lines (Lst ["c3"])) (λ _, remove_drugs (Str "d2")) ds_three.
Proof.
  assert (parallel ds_three) as H by (split; reflexivity).
  split; [exact H|]. exact (filters_commute (Str "d2") (Lst ["c3"]) ds_three H).
Defined.

Lemma rows_add_rows other d :
  parallel d → rows (add_rows other d).1 = rows d ++ rows other.
Proof.
  intros [H1 H2]. rewrite add_rows_result. unfold rows. simpl.
  rewrite (zip_with_app pair (cell_line_ids d)) by congruence.
  rewrite zip_with_app; [done|]. rewrite length_zip. lia.
Qed.

(** X4: merging and reducing commute. On datasets with parallel arrays,
    [add_rows(other)] followed by [reduce_to] leaves the dataset that
    reducing both datasets first and merging them then leaves. *)
Theorem reduce_to_after_add_rows cl dr other d :
  parallel d → parallel other →
  bind (add_rows other) (λ _, reduce_to cl dr) d
  = bind (reduce_to cl dr) (λ _, add_rows (reduce_to cl dr other).1) d.
Proof.
  intros Hd Ho.
  pose proof (add_rows_parallel other d Hd Ho) as Hm.
  assert (add_rows other d = ((add_rows other d).1, Ok tt)) as E1
    by (by rewrite add_rows_result).
  rewrite (bind_ok _ _ _ _ _ E1).
  rewrite (bind_ok _ _ _ _ _ (reduce_to_select cl dr d Hd)).
  rewrite !reduce_to_select by done. cbn [fst].
  set (k := keep_listed cl dr).
  assert (add_rows (k other) (k d) = ((add_rows (k other) (k d)).1, Ok tt)) as E2
    by (by rewrite add_rows_result).
  rewrite E2. f_equal.
  pose proof (keep_listed_parallel cl dr d Hd) as Hkd.
  pose proof (keep_listed_parallel cl dr other Ho) as Hko.
  apply dataset_eq_rows.
  - by apply keep_listed_parallel.
  - by apply add_rows_parallel.
  - unfold k. rewrite rows_keep_listed, !rows_add_rows by done.
    rewrite !rows_keep_listed by done. apply filter_app.
  - by rewrite !add_rows_result.
Qed.

Lemma reduce_to_after_add_rows_witness :
  parallel ds_three ∧ parallel ds_predicted ∧
  bind (add_rows ds_predicted) (λ _, reduce_to ["c1"; "c3"] ["d1"]) ds_three
  = bind (reduce_to ["c1"; "c3"] ["d1"])
         (λ _, add_rows (reduce_to ["c1"; "c3"] ["d1"] ds_predicted).1) ds_three.
Proof.
  assert (parallel ds_three) as H by (split; reflexivity).
  assert (parallel ds_predicted) as H' by (split; reflexivity).
  split; [exact H|]. split; [exact H'|].
  exact (reduce_to_after_add_rows ["c1"; "c3"] ["d1"] ds_predicted ds_three H H').
Defined.

(** X5: when the array of cell lines is not as long as the array of
    drugs, [remove_drugs] raises [IndexError] after it has filtered the
    drugs: the dataset is left with fewer drugs and all its cell lines and
    responses. *)
Theorem remove_drugs_index_error x d :
  drug_ids d ≠ [] → length (cell_line_ids d) ≠ length (drug_ids d) →
  remove_drugs x d
  = (set_drug_ids (filter (λ drug, drug ∉ listed x) (drug_ids d)) d,
     Raise IndexError).
Proof.
  intros Hne Hlen. unfold remove_drugs. monad_unfold.
  rewrite bool_index_parallel by (by rewrite length_map).
  fold (listed x).
  assert (mask_filter (drug_ids d)
            (map (λ drug, negb (py_in drug (listed x))) (drug_ids d))
          = filter (λ drug, drug ∉ listed x) (drug_ids d)) as ->.
  { rewrite (mask_filter_filter (λ drug, negb (py_in drug (listed x)))).
    apply list_filter_iff. intros r. unfold py_in.
    by rewrite negb_true_iff, bool_decide_eq_false. }
  unfold bool_index. destruct (drug_ids d) as [|g gs] eqn:Eg; [done|].
  cbn [map]. rewrite decide_False; [done|].
  rewrite length_cons, length_map. simpl in Hlen. lia.
Qed.

Lemma remove_drugs_index_error_witness :
  remove_drugs (Str "d1") (mkDRD [fl 1; fl 2] ["c1"] ["d1"; "d2"] None)
  = (mkDRD [fl 1; fl 2] ["c1"] ["d2"] None, Raise IndexError).
Proof.
  exact (remove_drugs_index_error (Str "d1")
           (mkDRD [fl 1; fl 2] ["c1"] ["d1"; "d2"] None)
           ltac:(discriminate) ltac:(simpl; lia)).
Defined.

(** ** shuffle, row by row *)

Lemma int_index_Forall2 {A} (xs : list A) (indices : list nat) r :
  int_index xs indices = Ok r → Forall2 (λ i x, xs !! i = Some x) indices r.
Proof.
  revert r. induction indices as [|i indices IH]; intros r; simpl.
  - intros [= <-]. constructor.
  - destruct (xs !! i) eqn:E; [|done].
    destruct (int_index xs indices); [|done].
    intros [= <-]. constructor; auto.
Qed.

Lemma indexed_zip {A B} (xs xs' : list A) (ys ys' : list B) (indices : list nat) :
  Forall2 (λ i x, xs !! i = Some x) indices xs' →
  Forall2 (λ i y, ys !! i = Some y) indices ys' →
  Forall2 (λ i p, zip xs ys !! i = Some p) indices (zip xs' ys').
Proof.
  intros H. revert ys'. induction H as [|i x indices xs' Hx _ IH];
    intros ys' Hy; inversion Hy as [|? y ? ys'' Hy1 Hy2]; subst; simpl.
  - constructor.
  - constructor; [|by apply IH].
    rewrite lookup_zip_with, Hx. simpl. by rewrite Hy1.
Qed.

Lemma omap_lookup_seq {A} (l : list A) :
  omap (λ i, l !! i) (seq 0 (length l)) = l.
Proof.
  induction l as [|x l IH] using rev_ind; [done|].
  rewrite length_app. simpl. rewrite Nat.add_1_r, seq_S, omap_app. simpl.
  rewrite lookup_app_r, Nat.sub_diag by done. simpl. f_equal.
  transitivity (omap (λ i, l !! i) (seq 0 (length l))); [|exact IH].
  apply list_omap_ext. apply Forall_Forall2_diag.
  apply Forall_forall. intros i Hi%elem_of_seq. by rewrite lookup_app_l by lia.
Qed.

Lemma indexed_permutation {A} (l l' : list A) (indices : list nat) :
  Forall2 (λ i x, l !! i = Some x) indices l' →
  indices ≡ₚ seq 0 (length l) → l' ≡ₚ l.
Proof.
  intros H Hp.
  assert (l' = omap (λ i, l !! i) indices) as ->.
  { clear Hp. induction H as [|i x indices l' Hx _ IH]; [done|].
    simpl. rewrite Hx. simpl. by f_equal. }
  rewrite Hp. by rewrite omap_lookup_seq.
Qed.

Lemma shuffle_indexed np_shuffle seed d :
  (∀ seed n, np_shuffle seed n ≡ₚ seq 0 n) → well_formed d →
  let indices := np_shuffle seed (length (response d)) in
  ∃ r c g,
    int_index (response d) indices = Ok r
    ∧ int_index (cell_line_ids d) indices = Ok c
    ∧ int_index (drug_ids d) indices = Ok g
    ∧ match predictions d with
      | Some p => ∃ q, int_index p indices = Ok q
                       ∧ shuffle np_shuffle seed d = (mkDRD r c g (Some q), Ok tt)
      | None => shuffle np_shuffle seed d = (mkDRD r c g None, Ok tt)
      end.
Proof.
  intros Hperm [[H1 H2] Hp] indices.
  pose proof (np_shuffle_in_range np_shuffle Hperm seed (length (response d)))
    as Hr. fold indices in Hr.
  destruct (int_index_in_range (response d) indices Hr) as [r Er].
  destruct (int_index_in_range (cell_line_ids d) indices) as [c Ec];
    [by rewrite H1|].
  destruct (int_index_in_range (drug_ids d) indices) as [g Eg];
    [by rewrite H2|].
  exists r, c, g. repeat (split; [done|]).
  unfold predictions_aligned in Hp. unfold shuffle. monad_unfold.
  fold indices. rewrite Er, Ec, Eg.
  destruct (predictions d) as [p|] eqn:Ep.
  - destruct (int_index_in_range p indices) as [q Eq]; [by rewrite Hp|].
    exists q. split; [done|]. by rewrite Eq.
  - unfold set_drug_ids, set_cell_line_ids, set_response. simpl. by rewrite Ep.
Qed.

Lemma shuffle_rows np_shuffle seed d :
  (∀ seed n, np_shuffle seed n ≡ₚ seq 0 n) → well_formed d →
  ∃ d', shuffle np_shuffle seed d = (d', Ok tt)
    ∧ rows d' ≡ₚ rows d
    ∧ match predictions d, predictions d' with
      | Some p, Some p' => zip (rows d') p' ≡ₚ zip (rows d) p
      | None, None => True
      | _, _ => False
      end.
Proof.
  intros Hperm Hd.
  destruct (shuffle_indexed np_shuffle seed d Hperm Hd) as (r & c & g & Er & Ec & Eg & H).
  destruct Hd as [[H1 H2] Hp]. unfold predictions_aligned in Hp.
  set (indices := np_shuffle seed (length (response d))) in *.
  apply int_index_Forall2 in Er, Ec, Eg.
  pose proof (indexed_zip _ _ _ _ _ (indexed_zip _ _ _ _ _ Ec Eg) Er) as Hrows.
  assert (length (rows d) = length (response d)) as Hlen.
  { unfold rows. rewrite !length_zip. lia. }
  assert (indices ≡ₚ seq 0 (length (rows d))) as Hi
    by (rewrite Hlen; apply Hperm).
  destruct (predictions d) as [p|] eqn:Ep.
  - destruct H as (q & Eq & E). eexists. split; [exact E|]. simpl.
    split; [by eapply indexed_permutation|].
    apply int_index_Forall2 in Eq.
    eapply indexed_permutation; [by apply indexed_zip|].
    rewrite length_zip. replace (length (rows d) `min` length p) with
      (length (rows d)) by lia. done.
  - eexists. split; [exact H|]. simpl.
    split; [by eapply indexed_permutation|done].
Qed.



(** ** The feature store *)

Lemma dict_get_keys {V} (k : string) (d : pydict V) :
  k ∈ dict_keys d ↔ is_Some (dict_get k d).
Proof.
  unfold dict_keys. induction d as [|[k' v] d IH]; simpl.
  - split; [by intros ?%elem_of_nil|by intros [? ?]].
  - rewrite elem_of_cons. destruct (decide (k = k')) as [->|Hne]; simpl.
    + split; [by eexists|by left].
    + rewrite IH. split; [by intros [|]|by right].
Qed.

(** X7: [FeatureDataset(features)] fails, with [IndexError], on the
    empty dictionary only; otherwise the identifiers of the store are the
    keys of the dictionary in their order, and its view names are the
    views of the first entity. *)
Theorem FeatureDataset_init_empty_only (f : pydict (pydict vector)) :
  (FeatureDataset_init f = Raise IndexError ↔ f = [])
  ∧ (∀ e, FeatureDataset_init f = Raise e → e = IndexError)
  ∧ (∀ self, FeatureDataset_init f = Ok self →
       features self = f ∧ identifiers self = dict_keys f
       ∧ ∃ k views rest, f = (k, views) :: rest ∧ view_names self = dict_keys views).
Proof.
  unfold FeatureDataset_init, get_view_names. destruct f as [|[k views] rest]; simpl.
  - split; [done|]. split; [by intros e [= <-]|done].
  - rewrite decide_True by done. split; [done|]. split; [done|].
    intros self [= <-]. simpl. split; [done|]. split; [done|].
    by eexists _, _, _.
Qed.

Lemma missing_identifiers_spec (known asked : list string) (x : string) :
  x ∈ (list_to_set (filter (λ id_, id_ ∉ known) asked) : gset string)
  ↔ x ∈ asked ∧ x ∉ known.
Proof. rewrite elem_of_list_to_set, list_elem_of_filter. tauto. Qed.

(** X8: when the view is known and some requested id is not among the
    identifiers of the store, [get_feature_matrix] fails on its second
    assertion and reports the whole set of missing ids: every requested id
    that the store does not have, and nothing else. *)
Theorem get_feature_matrix_reports_missing self view asked x :
  view ∈ view_names self → x ∈ asked → x ∉ identifiers self →
  ∃ missing,
    get_feature_matrix self view asked
    = inl (AssertionError
             (IdsNotInDataset (size missing)
                              (size (list_to_set asked : gset string)) missing))
    ∧ ∀ y, y ∈ missing ↔ y ∈ asked ∧ y ∉ identifiers self.
Proof.
  intros Hv Hx Hm. unfold get_feature_matrix, py_in.
  rewrite bool_decide_eq_true_2 by done. simpl.
  rewrite decide_True.
  - eexists. split; [done|]. apply missing_identifiers_spec.
  - intros He. apply (not_elem_of_empty (C := gset string) x).
    rewrite <- He. by apply missing_identifiers_spec.
Qed.

Lemma get_feature_matrix_reports_missing_witness :
  ∃ missing,
    get_feature_matrix toy_cl "expr" ["c1"; "c9"]
    = inl (AssertionError
             (IdsNotInDataset (size missing)
                (size (list_to_set ["c1"; "c9"] : gset string)) missing))
    ∧ ∀ y, y ∈ missing ↔ y ∈ ["c1"; "c9"] ∧ y ∉ identifiers toy_cl.
Proof.
  refine (get_feature_matrix_reports_missing toy_cl "expr" ["c1"; "c9"] "c9" _ _ _).
  - by left.
  - by right; left.
  - compute_done.
Defined.

Lemma np_stack_Ok arrays m :
  np_stack arrays = Ok m →
  m = arrays ∧ arrays ≠ []
  ∧ ∃ n, Forall (λ a, length a = n) arrays.
Proof.
  unfold np_stack. destruct arrays as [|a rest]; [done|].
  destruct (forallb (λ b, length b =? length a) rest) eqn:E; [|done].
  intros [= <-]. split; [done|]. split; [done|].
  exists (length a). constructor; [done|].
  apply Forall_forall. intros b Hb%list_elem_of_In.
  rewrite forallb_forall in E. by apply Nat.eqb_eq, E.
Qed.

(** X9: a matrix that [get_feature_matrix] returns has one row for each
    requested id, in the order of the request; row [k] is the vector that
    the store holds for the [k]-th id and the view; the rows have one
    length; there is at least one row; the view is among the view names
    and every requested id among the identifiers of the store. *)
Theorem get_feature_matrix_rows self view asked m :
  get_feature_matrix self view asked = inr m →
  view ∈ view_names self
  ∧ Forall (λ id_, id_ ∈ identifiers self) asked
  ∧ asked ≠ []
  ∧ Forall2 (λ id_ row, feature_of self view id_ = Some row) asked m
  ∧ ∃ n, Forall (λ row, length row = n) m.
Proof.
  unfold get_feature_matrix, py_in.
  destruct (bool_decide_reflect (view ∈ view_names self)) as [Hv|]; [|done].
  simpl. case_decide as Hm; [done|].
  destruct (mapM _ asked) as [arrays|] eqn:Ea; [|done].
  destruct (np_stack arrays) as [m'|] eqn:Es; [|done]. intros [= <-].
  apply np_stack_Ok in Es as (-> & Hne & Hn). apply mapM_Some_1 in Ea.
  split; [done|]. split; [|split; [|split; [done|done]]].
  - apply Forall_forall. intros y Hy.
    destruct (decide (y ∈ identifiers self)) as [|Hout]; [done|].
    exfalso. assert (list_to_set (filter (λ id_, id_ ∉ identifiers self) asked)
                     = (∅ : gset string)) as He
      by (destruct (decide (list_to_set
                      (filter (λ id_, id_ ∉ identifiers self) asked)
                    = (∅ : gset string))); [done|by destruct Hm]).
    apply (not_elem_of_empty (C := gset string) y). rewrite <- He.
    by apply missing_identifiers_spec.
  - intros ->. inversion Ea; by subst.
Qed.

Lemma get_feature_matrix_rows_witness :
  get_feature_matrix toy_cl "expr" ["c2"; "c1"; "c2"]
  = inr [[fl 3; fl 4]; [fl 1; fl 2]; [fl 3; fl 4]] ∧
  view_names toy_cl = ["expr"] ∧
  Forall2 (λ id_ row, feature_of toy_cl "expr" id_ = Some row) ["c2"; "c1"; "c2"]
          [[fl 3; fl 4]; [fl 1; fl 2]; [fl 3; fl 4]].
Proof.
  assert (get_feature_matrix toy_cl "expr" ["c2"; "c1"; "c2"]
          = inr [[fl 3; fl 4]; [fl 1; fl 2]; [fl 3; fl 4]]) as E.
  { vm_compute. reflexivity. }
  split; [exact E|]. split; [reflexivity|].
  exact (proj1 (proj2 (proj2 (proj2
           (get_feature_matrix_rows toy_cl "expr" ["c2"; "c1"; "c2"] _ E))))).
Defined.

Lemma no_missing_identifiers (known asked : list string) :
  Forall (λ id_, id_ ∈ known) asked →
  (list_to_set (filter (λ id_, id_ ∉ known) asked) : gset string) = ∅.
Proof.
  intros H. apply elem_of_equiv_empty_L. intros x Hx%missing_identifiers_spec.
  destruct Hx as [Hin Hout]. rewrite Forall_forall in H. by apply Hout, H.
Qed.

Lemma get_feature_matrix_empty self view :
  view ∈ view_names self →
  get_feature_matrix self view [] = inl (Raised ValueError).
Proof.
  intros Hv. unfold get_feature_matrix, py_in.
  rewrite bool_decide_eq_true_2 by done. simpl.
  rewrite decide_False; [done|]. intros H. by apply H.
Qed.

Lemma get_feature_matrix_total self view asked :
  store_consistent self → view ∈ view_names self → asked ≠ [] →
  Forall (λ id_, id_ ∈ identifiers self) asked →
  ∃ m, get_feature_matrix self view asked = inr m ∧ length m = length asked.
Proof.
  intros [Hid Hviews] Hv Hne Hall. unfold get_feature_matrix, py_in.
  rewrite bool_decide_eq_true_2 by done. simpl.
  rewrite no_missing_identifiers by done.
  rewrite decide_False by (intros H; by apply H).
  destruct (Hviews view Hv) as [n Hn].
  assert (Forall (λ id_, ∃ v, feature_of self view id_ = Some v ∧ length v = n)
                 asked) as Hf.
  { eapply Forall_impl; [exact Hall|]. intros id_ Hin. cbn beta in Hin.
    rewrite Hid in Hin. apply dict_get_keys in Hin as [views Hg].
    destruct (Hn id_ views Hg) as (v & Ev & Lv). exists v. split; [|done].
    unfold feature_of. by rewrite Hg. }
  assert (∃ arrays, mapM (feature_of self view) asked = Some arrays
                    ∧ Forall (λ a, length a = n) arrays) as (arrays & Ea & Hl).
  { clear Hne Hall. induction Hf as [|id_ asked (v & Ev & Lv) _ (arrays & Ea & Hl)].
    - by exists [].
    - exists (v :: arrays). split; [|by constructor].
      simpl. rewrite Ev. simpl. by rewrite Ea. }
  rewrite Ea. pose proof (length_mapM _ _ _ Ea) as Hlen.
  destruct arrays as [|a rest]; [by destruct asked|].
  unfold np_stack. inversion Hl as [|? ? La Lrest]; subst.
  assert (forallb (λ b, length b =? length a) rest = true) as ->.
  { apply forallb_forall. intros b Hb%list_elem_of_In. apply Nat.eqb_eq.
    rewrite Forall_forall in Lrest. by apply Lrest. }
  by eexists.
Qed.

(** X10: after [reduce_to] with the identifiers of a cell-line store and
    of a drug store, the features of the dataset can be looked up. For
    stores whose entities all have the views with vectors of one length,
    [get_feature_matrix] on the cell lines (the drugs) of the reduced
    dataset returns a matrix with one row for each row of the dataset;
    when the reduction has left no row, it raises [ValueError] instead.
    It never fails on a missing identifier. *)
Theorem reduce_to_makes_lookup_safe (F G : FeatureDataset) (view view' : string)
    (d : DrugResponseDataset) :
  parallel d → store_consistent F → store_consistent G →
  view ∈ view_names F → view' ∈ view_names G →
  let d' := (reduce_to (identifiers F) (identifiers G) d).1 in
  if decide (response d' = [])
  then get_feature_matrix F view (cell_line_ids d') = inl (Raised ValueError)
       ∧ get_feature_matrix G view' (drug_ids d') = inl (Raised ValueError)
  else ∃ m m',
         get_feature_matrix F view (cell_line_ids d') = inr m
         ∧ get_feature_matrix G view' (drug_ids d') = inr m'
         ∧ length m = length (response d') ∧ length m' = length (response d').
Proof.
  intros Hd HF HG Hv Hv'. rewrite reduce_to_select by done. cbn [fst].
  pose proof (keep_listed_parallel (identifiers F) (identifiers G) d Hd) as [H1 H2].
  pose proof (keep_listed_cell_lines (identifiers F) (identifiers G) d) as Hc.
  pose proof (keep_listed_drugs (identifiers F) (identifiers G) d) as Hg.
  set (d' := keep_listed (identifiers F) (identifiers G) d) in *.
  case_decide as He.
  - rewrite He in H1, H2. simpl in *.
    apply nil_length_inv in H1, H2. rewrite H1, H2.
    split; by apply get_feature_matrix_empty.
  - destruct (get_feature_matrix_total F view (cell_line_ids d')) as (m & E & L);
      try done.
    { intros Hn. rewrite Hn in H1. symmetry in H1. by apply nil_length_inv in H1. }
    { eapply Forall_impl; [exact Hc|]. intros x Hx. by apply bool_decide_eq_true in Hx. }
    destruct (get_feature_matrix_total G view' (drug_ids d')) as (m' & E' & L');
      try done.
    { intros Hn. rewrite Hn in H2. symmetry in H2. by apply nil_length_inv in H2. }
    { eapply Forall_impl; [exact Hg|]. intros x Hx. by apply bool_decide_eq_true in Hx. }
    exists m, m'. repeat split; try done; congruence.
Qed.

Lemma toy_cl_consistent : store_consistent toy_cl.
Proof.
  split; [reflexivity|]. intros view ->%list_elem_of_singleton. exists 2.
  intros id_ views Hg. simpl in Hg.
  repeat case_decide; simplify_eq; by eexists.
Qed.

Lemma toy_drug_consistent : store_consistent toy_drug.
Proof.
  split; [reflexivity|]. intros view ->%list_elem_of_singleton. exists 1.
  intros id_ views Hg. simpl in Hg.
  repeat case_decide; simplify_eq; by eexists.
Qed.

Lemma reduce_to_makes_lookup_safe_witness :
  parallel toy_train ∧
  let d' := (reduce_to (identifiers toy_cl) (identifiers toy_drug) toy_train).1 in
  if decide (response d' = [])
  then get_feature_matrix toy_cl "expr" (cell_line_ids d') = inl (Raised ValueError)
       ∧ get_feature_matrix toy_drug "fingerprint" (drug_ids d')
         = inl (Raised ValueError)
  else ∃ m m',
         get_feature_matrix toy_cl "expr" (cell_line_ids d') = inr m
         ∧ get_feature_matrix toy_drug "fingerprint" (drug_ids d') = inr m'
         ∧ length m = length (response d') ∧ length m' = length (response d').
Proof.
  assert (parallel toy_train) as H by (split; reflexivity).
  split; [exact H|].
  exact (reduce_to_makes_lookup_safe toy_cl toy_drug "expr" "fingerprint" toy_train
           H toy_cl_consistent toy_drug_consistent
           ltac:(by left) ltac:(by left)).
Defined.

(** ** The tuner and the folds *)

Lemma foldM_app {S A B} (f : B → A → M S B) (l1 l2 : list A) (b : B) (s : S) :
  foldM f (l1 ++ l2) b s
  = bind (foldM f l1 b) (λ b', foldM f l2 b') s.
Proof.
  revert b s. induction l1 as [|a l1 IH]; intros b s; simpl; [done|].
  unfold bind. destruct (f b a s) as [s' [b'|e]]; [|done].
  rewrite IH. reflexivity.
Qed.

(** X11: the sequential tuner stops at the first evaluation that
    raises. When the configurations of [pre] are evaluated normally and
    the evaluation of [h] raises [e], the tuner on [pre ++ h :: post]
    raises [e] in the world that this evaluation left; no configuration of
    [post] is evaluated and no configuration is returned. *)
Theorem hpam_tune_stops_at_error {MS} (model : DRPModel (MS := MS)) evaluate
    (t v : loc) (es : option loc) (pre post : list hpam) (h : hpam)
    (w w1 w2 : world) (r : option hpam) (e : exn) :
  hpam_tune model evaluate t v pre es w = (w1, Ok r) →
  train_and_evaluate model evaluate (Some h) t v es "rmse" w1 = (w2, Raise e) →
  hpam_tune model evaluate t v (pre ++ h :: post) es w = (w2, Raise e).
Proof.
  unfold hpam_tune. intros Hpre Hh.
  unfold bind in Hpre.
  destruct (foldM (hpam_tune_step model evaluate t v es) pre (PInf, None) w)
    as [w1' [best|e']] eqn:Ef; [|done].
  injection Hpre as -> _.
  unfold bind at 1. rewrite foldM_app. rewrite (bind_ok _ _ _ _ _ Ef).
  simpl. unfold bind at 1. unfold hpam_tune_step at 1. destruct best as [b bh].
  by rewrite (bind_raise _ _ _ _ _ Hh).
Qed.

Lemma hpam_tune_stops_at_error_witness :
  hpam_tune toy_model toy_evaluate 0 1 ([cfg "aa"] ++ [("alpha", "b")] :: [cfg "c"])
            None toy_world
  = (toy_after "aa", Raise KeyError).
Proof.
  refine (hpam_tune_stops_at_error toy_model toy_evaluate 0 1 None [cfg "aa"]
            [cfg "c"] [("alpha", "b")] toy_world (toy_after "aa") (toy_after "aa")
            (Some (cfg "aa")) KeyError _ _).
  - vm_compute. reflexivity.
  - vm_compute. reflexivity.
Defined.

(** X12: a second evaluation with the same feature path drops no
    further row. After one [train_and_evaluate], another one whose
    configuration names the same [feature_path] leaves the train and the
    early-stopping dataset as they are and leaves the rows of the
    validation dataset as they are (it replaces its predictions). *)
Theorem second_evaluation_drops_nothing {MS} (model : DRPModel (MS := MS)) evaluate
    (h1 h2 : hpam) (path : string) (t v : loc) (es : option loc) (w : world) :
  heap_parallel (heap w) →
  dict_get "feature_path" h1 = Some path → dict_get "feature_path" h2 = Some path →
  t ≠ v → es ≠ Some t → es ≠ Some v →
  ∃ w1 s1 w2 s2,
    train_and_evaluate model evaluate (Some h1) t v es "rmse" w = (w1, Ok s1)
    ∧ train_and_evaluate model evaluate (Some h2) t v es "rmse" w1 = (w2, Ok s2)
    ∧ heap w2 !!! t = heap w1 !!! t
    ∧ rows (heap w2 !!! v) = rows (heap w1 !!! v)
    ∧ (∀ e, es = Some e → heap w2 !!! e = heap w1 !!! e).
Proof.
  intros Hh Hp1 Hp2 Htv Het Hev.
  set (F := get_cell_line_features model path).
  set (G := get_drug_features model path).
  set (w1 := trained_world model (Some h1) t v es F G w).
  set (w2 := trained_world model (Some h2) t v es F G w1).
  destruct (trained_world_lookup model (Some h1) t v es F G w Hh Htv Het Hev)
    as (Hh1 & Ht1 & (p1 & Hv1) & He1). fold w1 in Hh1, Ht1, Hv1, He1.
  destruct (trained_world_lookup model (Some h2) t v es F G w1 Hh1 Htv Het Hev)
    as (Hh2 & Ht2 & (p2 & Hv2) & He2). fold w2 in Hh2, Ht2, Hv2, He2.
  exists w1, (evaluate (heap w1 !!! v) ["rmse"]), w2,
         (evaluate (heap w2 !!! v) ["rmse"]).
  split; [|split; [|split; [|split]]].
  - unfold train_and_evaluate.
    by rewrite (bind_ok _ _ _ _ _
                  (train_and_predict_effect model (Some h1) t v es None None F G
                     w Hh ltac:(by simpl; rewrite Hp1) ltac:(by simpl; rewrite Hp1))).
  - unfold train_and_evaluate.
    by rewrite (bind_ok _ _ _ _ _
                  (train_and_predict_effect model (Some h2) t v es None None F G
                     w1 Hh1 ltac:(by simpl; rewrite Hp2)
                     ltac:(by simpl; rewrite Hp2))).
  - rewrite Ht2, Ht1. apply keep_listed_idempotent, Hh.
  - rewrite Hv2, Hv1. rewrite keep_listed_set_predictions.
    rewrite keep_listed_idempotent by apply Hh. reflexivity.
  - intros e Ee. rewrite (He2 e Ee), (He1 e Ee).
    apply keep_listed_idempotent, Hh.
Qed.

Lemma second_evaluation_drops_nothing_witness :
  heap_parallel (heap toy_world) ∧
  ∃ w1 s1 w2 s2,
    train_and_evaluate toy_model toy_evaluate (Some (cfg "aa")) 0 1 None "rmse"
                       toy_world = (w1, Ok s1)
    ∧ train_and_evaluate toy_model toy_evaluate (Some (cfg "b")) 0 1 None "rmse" w1
      = (w2, Ok s2)
    ∧ heap w2 !!! 0 = heap w1 !!! 0
    ∧ rows (heap w2 !!! 1) = rows (heap w1 !!! 1)
    ∧ (∀ e, None = Some e → heap w2 !!! e = heap w1 !!! e).
Proof.
  split; [exact toy_world_parallel|].
  exact (second_evaluation_drops_nothing toy_model toy_evaluate (cfg "aa") (cfg "b")
           "features/" 0 1 None toy_world toy_world_parallel eq_refl eq_refl
           ltac:(discriminate) ltac:(discriminate) ltac:(discriminate)).
Defined.

Lemma on_ok {MS A} (l : loc) (m : M DrugResponseDataset A)
    (w : world (MS := MS)) d a :
  m (heap w !!! l) = (d, Ok a) →
  on l m w = (set_heap (<[l := d]> (heap w)) w, Ok a).
Proof. intros E. unfold on. by rewrite E. Qed.

(** The fold up to the save of the test dataset, for a model that does
    not stop early and a tuner that has returned a configuration. *)
Lemma fold_reaches_save {MS} np_shuffle
    (model : DRPModel (MS := MS)) evaluate copy randomize raytune
    (test_mode : string) (views : option (pydict (list string)))
    (predictions_path : string) (randomization_test_path : option string)
    (hpam_set : list hpam) (split_index : nat) (t v test : loc)
    (w w1 : world) (h : hpam) (path : string) :
  (∀ seed n, np_shuffle seed n ≡ₚ seq 0 n) →
  early_stopping model = false →
  hpam_tune model evaluate t v hpam_set None w = (w1, Ok (Some h)) →
  dict_get "feature_path" h = Some path →
  heap_parallel (heap w1) → predictions (heap w1 !!! t) = None →
  ∃ w4,
    drug_response_experiment_split np_shuffle model evaluate copy randomize
      raytune false test_mode views predictions_path
      randomization_test_path hpam_set split_index t v test None w
    = bind (save test (path_join predictions_path
                                 (split_file test_mode split_index)))
           (λ _, match views with
                 | Some (g :: gs) =>
                     do es <- read_local None in
                     do path_out <- read_local randomization_test_path in
                     randomization_test model copy randomize (g :: gs) (Some h)
                       t test (Some es) path_out split_index test_mode
                 | _ => ret tt
                 end) w4
    ∧ log w4 = log w1
    ∧ (t ≠ test →
       rows (heap w4 !!! t)
       ≡ₚ filter (λ r, r.1.1 ∈ identifiers (get_cell_line_features model path)
                       ∧ r.1.2 ∈ identifiers (get_drug_features model path))
                 (rows (heap w1 !!! t) ++ rows (heap w1 !!! v))
       ∧ is_Some (predictions (heap w4 !!! test))).
Proof.
  intros Hperm Hes Htune Hpath Hh Hnone.
  unfold drug_response_experiment_split, early_stopping_or_none. rewrite Hes.
  unfold bind at 1. unfold bind at 1. cbn [ret]. rewrite Htune.
  unfold bind at 1. unfold deref at 1.
  set (other := heap w1 !!! v).
  assert (parallel (add_rows other (heap w1 !!! t)).1) as Hpar
    by (apply add_rows_parallel; apply Hh).
  assert (well_formed (add_rows other (heap w1 !!! t)).1) as Hwf.
  { split; [done|]. unfold predictions_aligned.
    rewrite add_rows_result. simpl. by rewrite Hnone. }
  assert (add_rows other (heap w1 !!! t)
          = ((add_rows other (heap w1 !!! t)).1, Ok tt)) as Eadd
    by (by rewrite add_rows_result).
  rewrite (bind_ok _ _ _ _ _ (on_ok t _ w1 _ _ Eadd)).
  set (w2 := set_heap _ w1).
  assert (heap w2 !!! t = (add_rows other (heap w1 !!! t)).1) as Et2
    by (unfold w2; cbn [heap set_heap]; by rewrite lookup_total_insert_eq).
  destruct (shuffle_rows np_shuffle 42 (heap w2 !!! t) Hperm) as (d' & Es & Hrows & _);
    [by rewrite Et2|].
  destruct (shuffle_well_formed np_shuffle Hperm 42 (heap w2 !!! t))
    as (d'' & Es' & Hd'); [by rewrite Et2|].
  rewrite Es in Es'. injection Es' as <-.
  rewrite (bind_ok _ _ _ _ _ (on_ok t _ w2 _ _ Es)).
  set (w3 := set_heap _ w2).
  assert (heap_parallel (heap w3)) as Hh3.
  { unfold w3, w2. cbn [heap set_heap].
    apply heap_parallel_insert; [apply Hd'|].
    by apply heap_parallel_insert. }
  assert (heap w3 !!! t = d') as Et3
    by (unfold w3; cbn [heap set_heap]; by rewrite lookup_total_insert_eq).
  unfold bind at 1. cbn [ret].
  rewrite (bind_ok _ _ _ _ _
             (train_and_predict_effect model (Some h) t test None None None
                (get_cell_line_features model path) (get_drug_features model path)
                w3 Hh3 ltac:(by simpl; rewrite Hpath) ltac:(by simpl; rewrite Hpath))).
  eexists. split; [reflexivity|]. split; [reflexivity|]. intros Hne.
  destruct (trained_world_lookup model (Some h) t test None
              (get_cell_line_features model path) (get_drug_features model path)
              w3 Hh3 Hne ltac:(discriminate) ltac:(discriminate))
    as (_ & Ht4 & (p & Hp4) & _).
  split.
  - rewrite Ht4, Et3, rows_keep_listed by apply Hd'.
    rewrite Hrows, Et2, rows_add_rows by apply Hh. done.
  - rewrite Hp4. by eexists.
Qed.


Lemma toy_after_grid_parallel : heap_parallel (heap (toy_after "c")).
Proof.
  unfold toy_after, train_and_evaluate.
  rewrite (bind_ok _ _ _ _ _
             (train_and_predict_effect toy_model (Some (cfg "c")) 0 1 None None
                None toy_cl toy_drug toy_world toy_world_parallel eq_refl eq_refl)).
  cbn [fst bind deref ret].
  apply (trained_world_lookup toy_model (Some (cfg "c")) 0 1 None toy_cl toy_drug
           toy_world toy_world_parallel); discriminate.
Qed.

Lemma toy_grid_tuned :
  hpam_tune toy_model toy_evaluate 0 1 toy_grid None toy_world
  = (toy_after "c", Ok (Some (cfg "b"))).
Proof. vm_compute. reflexivity. Qed.


(** X14: [split_early_stopping] shuffles the validation dataset of the
    caller in place before it splits: for a split mode other than LPO, LCO
    and LDO it raises [ValueError] and leaves that dataset with its rows
    reordered, and without folds. *)
Theorem split_early_stopping_unknown_mode np_shuffle leave_pair_out_cv
    leave_group_out_cv (test_mode : string) (d : DrugResponseDataset)
    (cv : option (list (pydict DrugResponseDataset))) :
  (∀ seed n, np_shuffle seed n ≡ₚ seq 0 n) → well_formed d →
  test_mode ∉ ["LPO"; "LCO"; "LDO"] →
  ∃ d', shuffle np_shuffle 42 d = (d', Ok tt)
    ∧ rows d' ≡ₚ rows d
    ∧ split_early_stopping np_shuffle leave_pair_out_cv leave_group_out_cv
        test_mode (d, cv)
      = ((d', cv), Raise ValueError).
Proof.
  intros Hperm Hd Hm.
  destruct (shuffle_rows np_shuffle 42 d Hperm Hd) as (d' & E & Hr & _).
  exists d'. split; [done|]. split; [done|].
  unfold split_early_stopping. unfold bind at 1. cbn [fst snd]. rewrite E.
  by rewrite (bind_raise _ _ _ _ _
                (split_dataset_unknown_mode leave_pair_out_cv leave_group_out_cv
                   4 test_mode false default_validation_ratio 42 (d', cv) Hm)).
Qed.

Lemma split_early_stopping_unknown_mode_witness :
  well_formed ds_three ∧ ("LOO" ∉ ["LPO"; "LCO"; "LDO"]) ∧
  ∃ d', shuffle reversing_shuffle 42 ds_three = (d', Ok tt)
    ∧ rows d' ≡ₚ rows ds_three
    ∧ split_early_stopping reversing_shuffle (λ _ _ _ _ _ _ _, Ok [])
        (λ _ _ _ _ _ _ _ _, Ok []) "LOO" (ds_three, None)
      = ((d', None), Raise ValueError).
Proof.
  assert (well_formed ds_three) as W by (repeat split; reflexivity).
  assert ("LOO" ∉ ["LPO"; "LCO"; "LDO"]) as H by compute_done.
  split; [exact W|]. split; [exact H|].
  exact (split_early_stopping_unknown_mode reversing_shuffle
           (λ _ _ _ _ _ _ _, Ok []) (λ _ _ _ _ _ _ _ _, Ok []) "LOO" ds_three None
           reversing_shuffle_permutation W H).
Defined.

(** X15: a fold without randomization tests, for a model that does not
    stop early. When the tuner has returned a configuration, the fold
    comes to the [save] of the test dataset with nothing written yet, and
    what the fold returns is what [save] returns; by then its train
    dataset is the rows of the train and of the validation dataset whose
    cell line and drug have features, in the shuffled order, and the test
    dataset carries predictions. *)
Theorem fold_trains_on_train_and_validation {MS} np_shuffle
    (model : DRPModel (MS := MS)) evaluate copy randomize raytune
    (test_mode predictions_path : string) (randomization_test_path : option string)
    (hpam_set : list hpam) (split_index : nat) (t v test : loc)
    (w w1 : world) (h : hpam) (path : string) :
  (∀ seed n, np_shuffle seed n ≡ₚ seq 0 n) →
  early_stopping model = false →
  hpam_tune model evaluate t v hpam_set None w = (w1, Ok (Some h)) →
  dict_get "feature_path" h = Some path →
  heap_parallel (heap w1) → predictions (heap w1 !!! t) = None → t ≠ test →
  ∃ w4,
    drug_response_experiment_split np_shuffle model evaluate copy randomize
      raytune false test_mode None predictions_path randomization_test_path
      hpam_set split_index t v test None w
    = bind (save test (path_join predictions_path
                                 (split_file test_mode split_index)))
           (λ _, ret tt) w4
    ∧ rows (heap w4 !!! t)
      ≡ₚ filter (λ r, r.1.1 ∈ identifiers (get_cell_line_features model path)
                      ∧ r.1.2 ∈ identifiers (get_drug_features model path))
                (rows (heap w1 !!! t) ++ rows (heap w1 !!! v))
    ∧ is_Some (predictions (heap w4 !!! test))
    ∧ log w4 = log w1.
Proof.
  intros Hperm Hes Htune Hpath Hh Hnone Hne.
  destruct (fold_reaches_save np_shuffle model evaluate copy randomize raytune
              test_mode None predictions_path randomization_test_path
              hpam_set split_index t v test w w1 h path Hperm Hes Htune Hpath Hh
              Hnone) as (w4 & E & Hlog & Hrest).
  destruct (Hrest Hne) as [Hrows Hpred]. by exists w4.
Qed.

Lemma fold_trains_on_train_and_validation_witness :
  ∃ w4,
    drug_response_experiment_split reversing_shuffle toy_model toy_evaluate
      value_copy toy_randomize no_raytune false "LPO" None "out/toy/predictions"
      None toy_grid 0 0 1 2 None toy_world
    = bind (save 2 (path_join "out/toy/predictions" (split_file "LPO" 0)))
           (λ _, ret tt) w4
    ∧ rows (heap w4 !!! 0)
      ≡ₚ filter (λ r, r.1.1 ∈ identifiers (get_cell_line_features toy_model "features/")
                      ∧ r.1.2 ∈ identifiers (get_drug_features toy_model "features/"))
                (rows (heap (toy_after "c") !!! 0) ++ rows (heap (toy_after "c") !!! 1))
    ∧ is_Some (predictions (heap w4 !!! 2))
    ∧ log w4 = log (toy_after "c").
Proof.
  exact (fold_trains_on_train_and_validation reversing_shuffle toy_model
           toy_evaluate value_copy toy_randomize no_raytune "LPO"
           "out/toy/predictions" None toy_grid 0 0 1 2 toy_world (toy_after "c")
           (cfg "b") "features/" reversing_shuffle_permutation eq_refl
           toy_grid_tuned eq_refl toy_after_grid_parallel eq_refl
           ltac:(discriminate)).
Defined.

(** ** The length of a dataset *)

Lemma length_rows d : parallel d → length (rows d) = len d.
Proof. intros [H1 H2]. unfold rows, len. rewrite !length_zip. lia. Qed.

(** X16: [len] under the operations, on well-formed datasets:
    [add_rows] adds the lengths, [shuffle] keeps the length, and no
    filter makes a dataset longer. *)
Theorem len_of_operations np_shuffle seed x cl dr other d :
  (∀ seed n, np_shuffle seed n ≡ₚ seq 0 n) → well_formed d →
  len (add_rows other d).1 = len d + len other
  ∧ len (shuffle np_shuffle seed d).1 = len d
  ∧ len (remove_drugs x d).1 ≤ len d
  ∧ len (remove_cell_lines x d).1 ≤ len d
  ∧ len (reduce_to cl dr d).1 ≤ len d.
Proof.
  intros Hperm Hd. pose proof Hd as [Hp _]. split; [|split; [|split; [|split]]].
  - rewrite add_rows_result. unfold len. simpl. by rewrite length_app.
  - destruct (shuffle_rows np_shuffle seed d Hperm Hd) as (d' & E & Hr & _).
    destruct (shuffle_well_formed np_shuffle Hperm seed d Hd) as (d'' & E' & [Hp' _]).
    rewrite E in E'. injection E' as <-. rewrite E. cbn [fst].
    rewrite <- !length_rows by done. by rewrite Hr.
  - destruct (remove_drugs_ok x d Hp) as (_ & Hp' & _).
    rewrite <- !length_rows, remove_drugs_rows by done. apply length_filter.
  - destruct (remove_cell_lines_ok x d Hp) as (_ & Hp' & _).
    rewrite <- !length_rows, remove_cell_lines_rows by done. apply length_filter.
  - rewrite reduce_to_select by done. cbn [fst].
    rewrite <- !length_rows, rows_keep_listed;
      [apply length_filter|done..|by apply keep_listed_parallel].
Qed.

Lemma len_of_operations_witness :
  well_formed ds_three ∧
  len (add_rows ds_one ds_three).1 = len ds_three + len ds_one
  ∧ len (shuffle reversing_shuffle 42 ds_three).1 = len ds_three
  ∧ len (remove_drugs (Str "d1") ds_three).1 ≤ len ds_three
  ∧ len (remove_cell_lines (Str "d1") ds_three).1 ≤ len ds_three
  ∧ len (reduce_to ["c1"] ["d1"] ds_three).1 ≤ len ds_three.
Proof.
  assert (well_formed ds_three) as W by (repeat split; reflexivity).
  split; [exact W|].
  exact (len_of_operations reversing_shuffle 42 (Str "d1") ["c1"] ["d1"] ds_one
           ds_three reversing_shuffle_permutation W).
Defined.

Lemma FeatureDataset_init_empty_only_witness :
  FeatureDataset_init [] = Raise IndexError
  ∧ ∀ self, FeatureDataset_init (features toy_cl) = Ok self →
      features self = features toy_cl
      ∧ identifiers self = dict_keys (features toy_cl)
      ∧ ∃ k views rest, features toy_cl = (k, views) :: rest
                        ∧ view_names self = dict_keys views.
Proof.
  split.
  - exact (proj2 (proj1 (FeatureDataset_init_empty_only [])) eq_refl).
  - exact (proj2 (proj2 (FeatureDataset_init_empty_only (features toy_cl)))).
Defined.
